(** * Reporting core of the school back end

    A shallow embedding of the computations of [DashboardService.overview]
    (dashboard.service.ts) and [TeachersService.listTeacherClasses]
    (teachers.service.ts), and the properties proved about them.

    Modelling conventions.
    - Integer quantities (cents, counts, minutes, time values in
      milliseconds) are [Z]; they come from integer columns and stay far
      below 2^53, where the arithmetic of JavaScript numbers is exact.
    - [x ?? d] on an optional number is [default d x] on [option Z].
    - The only fractional number of the report, the payment rate, is a
      double: a binary64 floating-point number with the division of
      IEEE 754.
    - Dates follow the time-value arithmetic of ECMA-262: a [Date] is a
      time value in milliseconds or invalid, and [toISOString] throws a
      [RangeError] on an invalid date, the only exception the schedule
      expansion can raise.  The reference instant [now] is the clock of
      the server, a valid time value.
    - A plain object used as a dictionary is a finite map of its own keys
      on top of the members inherited from [Object.prototype]: reading a
      key that is not an own key finds the inherited member of that name,
      if any, assigning to [__proto__] reaches the inherited setter, and
      calling [push] on an inherited member throws a [TypeError].
    - [Array.prototype.sort] is the stable sort.
    - A string is the sequence of bytes of its UTF-8 encoding.
    - Records fetched from the data layer are inputs; the queries that
      fetch them are not part of the model. *)

From Stdlib Require Import ZArith Lia List Bool PrimFloat.
From Stdlib Require Import Ascii String Permutation Sorted.
From stdpp Require Import gmap strings pretty.
Import ListNotations.

(** ** Numbers *)

Module JS.
Local Open Scope Z_scope.

(** The double that holds an integer, built from its binary digits with the
    arithmetic of doubles; every step is exact up to 2^53. *)
Fixpoint ofPos (p : positive) : float :=
  match p with
  | xH => 1%float
  | xO q => (2 * ofPos q)%float
  | xI q => (2 * ofPos q + 1)%float
  end.

Definition ofZ (z : Z) : float :=
  match z with
  | Z0 => 0%float
  | Zpos p => ofPos p
  | Zneg p => (- ofPos p)%float
  end.

(** [a / b] on two integers: the division of doubles, rounded to the
    nearest double; dividing by zero does not raise, it yields [NaN] or an
    infinity. *)
Definition divide (a b : Z) : float := (ofZ a / ofZ b)%float.

(** [Array.prototype.sort(cmp)].  The sort is specified to be stable; with
    a consistent comparator its result is the one stably sorted
    arrangement of the array, computed here by insertion from the right:
    an element is placed before the first element of the sorted tail that
    it does not exceed, hence before the equal elements that followed it. *)
Fixpoint insertBy {A : Type} (cmp : A -> A -> Z) (x : A) (l : list A)
  : list A :=
  match l with
  | [] => [x]
  | y :: ys => if cmp x y <=? 0 then x :: y :: ys else y :: insertBy cmp x ys
  end.

Definition sort {A : Type} (cmp : A -> A -> Z) (l : list A) : list A :=
  fold_right (insertBy cmp) [] l.

(** Strings are the byte sequences of their UTF-8 encoding.

    [wsBytes s] is the number of bytes of the white-space or
    line-terminator character at the head of [s], 0 when [s] starts with
    another character.  The characters are those [String.prototype.trim]
    strips: U+0009 to U+000D, U+0020, U+00A0, U+1680, U+2000 to U+200A,
    U+2028, U+2029, U+202F, U+205F, U+3000 and U+FEFF. *)
Definition wsBytes (s : string) : nat :=
  match s with
  | EmptyString => 0%nat
  | String c r =>
      let b := N_of_ascii c in
      if ((9 <=? b) && (b <=? 13) || (b =? 32))%N then 1%nat
      else
        match r with
        | EmptyString => 0%nat
        | String c1 r1 =>
            let b1 := N_of_ascii c1 in
            if ((b =? 194) && (b1 =? 160))%N then 2%nat
            else
              match r1 with
              | EmptyString => 0%nat
              | String c2 _ =>
                  let b2 := N_of_ascii c2 in
                  if ((b =? 225) && (b1 =? 154) && (b2 =? 128))%N then 3%nat
                  else if ((b =? 226) && (b1 =? 128)
                           && ((128 <=? b2) && (b2 <=? 138) || (b2 =? 168)
                               || (b2 =? 169) || (b2 =? 175)))%N then 3%nat
                  else if ((b =? 226) && (b1 =? 129) && (b2 =? 159))%N
                  then 3%nat
                  else if ((b =? 227) && (b1 =? 128) && (b2 =? 128))%N
                  then 3%nat
                  else if ((b =? 239) && (b1 =? 187) && (b2 =? 191))%N
                  then 3%nat
                  else 0%nat
              end
        end
  end.

(** A string made of white space only. *)
Fixpoint blank (s : string) : bool :=
  match s with
  | EmptyString => true
  | String _ r =>
      match wsBytes s with
      | 1%nat => blank r
      | 2%nat => match r with
                 | String _ r1 => blank r1
                 | EmptyString => false
                 end
      | 3%nat => match r with
                 | String _ (String _ r2) => blank r2
                 | _ => false
                 end
      | _ => false
      end
  end.

Fixpoint trimStart (s : string) : string :=
  match s with
  | EmptyString => EmptyString
  | String _ r =>
      match wsBytes s with
      | 1%nat => trimStart r
      | 2%nat => match r with
                 | String _ r1 => trimStart r1
                 | EmptyString => s
                 end
      | 3%nat => match r with
                 | String _ (String _ r2) => trimStart r2
                 | _ => s
                 end
      | _ => s
      end
  end.

(** The string is cut where only white space follows. *)
Fixpoint trimEnd (s : string) : string :=
  match s with
  | EmptyString => EmptyString
  | String c r => if blank s then EmptyString else String c (trimEnd r)
  end.

(** [String.prototype.trim] *)
Definition trim (s : string) : string := trimEnd (trimStart s).

(** A string is truthy when it is not empty. *)
Definition truthy (s : string) : bool :=
  match s with EmptyString => false | _ => true end.

Fixpoint replicate (n : nat) (c : ascii) : string :=
  match n with
  | O => EmptyString
  | S k => String c (replicate k c)
  end.

(** [s.padStart(n, c)] with a one-character filler. *)
Definition padStart (n : nat) (c : ascii) (s : string) : string :=
  replicate (n - String.length s) c ++ s.

(** [s.split(sep)[0]]: the characters before the first separator. *)
Fixpoint splitHead (sep : ascii) (s : string) : string :=
  match s with
  | EmptyString => EmptyString
  | String c r => if Ascii.eqb c sep then EmptyString
                  else String c (splitHead sep r)
  end.

(** [a.localeCompare(b)] as the sign of the comparison by character codes.
    The strings that this program compares are time stamps of one layout,
    made of digits with the same punctuation at the same places, on which
    collation and character codes agree. *)
Definition localeCompare (a b : string) : Z :=
  match String.compare a b with
  | Lt => -1
  | Eq => 0
  | Gt => 1
  end.

(** A plain object [{}] used as a dictionary: a finite map of its own
    properties, on top of the members every object inherits from
    [Object.prototype].  Reading a key that is not an own property finds
    the inherited member: a function for eleven names, and for [__proto__]
    the accessor, which gives the prototype object. *)
Definition prototypeFunctions : list string :=
  [ "constructor"; "hasOwnProperty"; "isPrototypeOf";
    "propertyIsEnumerable"; "toLocaleString"; "toString"; "valueOf";
    "__defineGetter__"; "__defineSetter__"; "__lookupGetter__";
    "__lookupSetter__" ]%string.

Definition isPrototypeFunction (k : string) : bool :=
  existsb (String.eqb k) prototypeFunctions.

Definition isInherited (k : string) : bool :=
  String.eqb k "__proto__" || isPrototypeFunction k.

Inductive Read (V : Type) : Type :=
| Own (v : V)
| InheritedFunction
| PrototypeObject
| Absent.
Arguments Own {V} v.
Arguments InheritedFunction {V}.
Arguments PrototypeObject {V}.
Arguments Absent {V}.

(** [o[k]] *)
Definition read {V : Type} (o : gmap string V) (k : string) : Read V :=
  match o !! k with
  | Some v => Own v
  | None =>
      if String.eqb k "__proto__" then PrototypeObject
      else if isPrototypeFunction k then InheritedFunction
      else Absent
  end.

(** [o[k] = v] for a primitive [v]: the setter of [__proto__] ignores a
    value that is not an object, every other key becomes an own
    property. *)
Definition write {V : Type} (o : gmap string V) (k : string) (v : V)
  : gmap string V :=
  if String.eqb k "__proto__" then o else <[k := v]> o.

(** The text [String(f)] of an inherited function, as Node prints it. *)
Definition nativeSource (k : string) : string :=
  ("function " ++ (if String.eqb k "constructor" then "Object" else k)
   ++ "() { [native code] }")%string.

(** What evaluating an expression yields: a value, or a thrown
    [RangeError]. *)
Inductive Completion (A : Type) : Type :=
| Normal (a : A)
| ThrowRangeError.
Arguments Normal {A} a.
Arguments ThrowRangeError {A}.

End JS.

(** ** Dates

    The time and date arithmetic built into the language, after the
    definitions of ECMA-262 (section Date Objects).  A time value is a
    number of milliseconds since the epoch; a [Date] holds a time value
    or is invalid ([None]). *)

Module JSDate.
Local Open Scope Z_scope.
Import JS.

Definition msPerDay : Z := 86400000.
Definition msPerHour : Z := 3600000.
Definition msPerMinute : Z := 60000.
Definition msPerSecond : Z := 1000.
Definition maxTime : Z := 8640000000000000.

Definition Day (t : Z) : Z := t / msPerDay.
Definition TimeWithinDay (t : Z) : Z := t mod msPerDay.

Definition DaysInYear (y : Z) : Z :=
  if negb (y mod 4 =? 0) then 365
  else if negb (y mod 100 =? 0) then 366
  else if negb (y mod 400 =? 0) then 365
  else 366.

Definition DayFromYear (y : Z) : Z :=
  365 * (y - 1970) + (y - 1969) / 4 - (y - 1901) / 100 + (y - 1601) / 400.

Definition TimeFromYear (y : Z) : Z := msPerDay * DayFromYear y.

(** The largest year that starts on or before day [d]: an estimate from
    the mean length of a year, put right by at most one year. *)
Definition YearFromDay (d : Z) : Z :=
  let g := 1970 + (400 * d) / 146097 in
  if d <? DayFromYear g then g - 1
  else if DayFromYear (g + 1) <=? d then g + 1
  else g.

Definition YearFromTime (t : Z) : Z := YearFromDay (Day t).

Definition InLeapYear (t : Z) : Z :=
  if DaysInYear (YearFromTime t) =? 366 then 1 else 0.

Definition DayWithinYear (t : Z) : Z := Day t - DayFromYear (YearFromTime t).

Definition MonthFromTime (t : Z) : Z :=
  let d := DayWithinYear t in
  let l := InLeapYear t in
  if d <? 31 then 0
  else if d <? 59 + l then 1
  else if d <? 90 + l then 2
  else if d <? 120 + l then 3
  else if d <? 151 + l then 4
  else if d <? 181 + l then 5
  else if d <? 212 + l then 6
  else if d <? 243 + l then 7
  else if d <? 273 + l then 8
  else if d <? 304 + l then 9
  else if d <? 334 + l then 10
  else 11.

Definition DateFromTime (t : Z) : Z :=
  let d := DayWithinYear t in
  let l := InLeapYear t in
  match MonthFromTime t with
  | 0 => d + 1
  | 1 => d - 30
  | 2 => d - 58 - l
  | 3 => d - 89 - l
  | 4 => d - 119 - l
  | 5 => d - 150 - l
  | 6 => d - 180 - l
  | 7 => d - 211 - l
  | 8 => d - 242 - l
  | 9 => d - 272 - l
  | 10 => d - 303 - l
  | _ => d - 333 - l
  end.

Definition WeekDay (t : Z) : Z := (Day t + 4) mod 7.

Definition HourFromTime (t : Z) : Z := (t / msPerHour) mod 24.
Definition MinFromTime (t : Z) : Z := (t / msPerMinute) mod 60.
Definition SecFromTime (t : Z) : Z := (t / msPerSecond) mod 60.
Definition msFromTime (t : Z) : Z := t mod msPerSecond.

Definition MakeTime (hour min sec ms : Z) : Z :=
  hour * msPerHour + min * msPerMinute + sec * msPerSecond + ms.

(** The day within its year on which month [mn] (0 to 11) starts. *)
Definition monthStart (leap mn : Z) : Z :=
  match mn with
  | 0 => 0
  | 1 => 31
  | 2 => 59 + leap
  | 3 => 90 + leap
  | 4 => 120 + leap
  | 5 => 151 + leap
  | 6 => 181 + leap
  | 7 => 212 + leap
  | 8 => 243 + leap
  | 9 => 273 + leap
  | 10 => 304 + leap
  | _ => 334 + leap
  end.

(** [MakeDay]: months outside 0..11 carry into the year, and the day of
    the month counts on from the first of that month, whatever its size. *)
Definition MakeDay (year month date : Z) : Z :=
  let ym := year + month / 12 in
  let mn := month mod 12 in
  let leap := if DaysInYear ym =? 366 then 1 else 0 in
  DayFromYear ym + monthStart leap mn + date - 1.

Definition MakeDate (day time : Z) : Z := day * msPerDay + time.

Definition TimeClip (time : Z) : option Z :=
  if Z.abs time <=? maxTime then Some time else None.

(** [Date.UTC(year, month, date)]; a year from 0 to 99 means 1900 + year. *)
Definition UTC (year month date : Z) : option Z :=
  let yr := if (0 <=? year) && (year <=? 99) then 1900 + year else year in
  TimeClip (MakeDate (MakeDay yr month date) (MakeTime 0 0 0 0)).

(** [d.getUTCDay() === n]: never true of an invalid date. *)
Definition utcDayIs (d : option Z) (n : Z) : bool :=
  match d with
  | Some t => WeekDay t =? n
  | None => false
  end.

(** [d.setUTCMinutes(min, sec, ms)], giving the date after the call. *)
Definition setUTCMinutes (d : option Z) (min sec ms : Z) : option Z :=
  match d with
  | Some t => TimeClip (MakeDate (Day t) (MakeTime (HourFromTime t) min sec ms))
  | None => None
  end.

Definition digit (d : Z) : ascii := ascii_of_N (48 + Z.to_N d).

(** The [w] low decimal digits of [n], most significant first. *)
Fixpoint digits (w : nat) (n : Z) : string :=
  match w with
  | O => EmptyString
  | S k => String (digit ((n / 10 ^ Z.of_nat k) mod 10))
             (digits k (n mod 10 ^ Z.of_nat k))
  end.

(** The year of a time stamp: four digits from 0 to 9999, otherwise a sign
    and six digits. *)
Definition isoYear (y : Z) : string :=
  if (0 <=? y) && (y <=? 9999) then digits 4 y
  else if y <? 0 then String "-" (digits 6 (- y))
  else String "+" (digits 6 y).

Definition isoDate (t : Z) : string :=
  isoYear (YearFromTime t) ++ "-" ++ digits 2 (MonthFromTime t + 1)
  ++ "-" ++ digits 2 (DateFromTime t).

Definition isoTime (t : Z) : string :=
  digits 2 (HourFromTime t) ++ ":" ++ digits 2 (MinFromTime t)
  ++ ":" ++ digits 2 (SecFromTime t) ++ "." ++ digits 3 (msFromTime t).

(** The time stamp [YYYY-MM-DDTHH:mm:ss.sssZ] of a time value. *)
Definition isoString (t : Z) : string :=
  isoDate t ++ "T" ++ isoTime t ++ "Z".

(** [d.toISOString()] throws a [RangeError] on an invalid date. *)
Definition toISOString (d : option Z) : Completion string :=
  match d with
  | Some t => Normal (isoString t)
  | None => ThrowRangeError
  end.

End JSDate.

(** ** dashboard.service.ts *)

Module Dashboard.
Local Open Scope Z_scope.
Import JS JSDate.

(** Lines 4-6.  [`${y}`] prints an integer in decimal; the fields of an
    invalid date are [NaN]. *)
Definition monthKey (d : option Z) : string :=
  match d with
  | Some t =>
      pretty (YearFromTime t) ++ "-"
      ++ padStart 2 "0" (pretty (MonthFromTime t + 1))
  | None => "NaN-NaN"
  end.

(** Lines 12-36: the first instants of the month of [monthDate] and of the
    month after it. *)
Definition getMonthRange (monthDate : Z) : option Z * option Z :=
  (UTC (YearFromTime monthDate) (MonthFromTime monthDate) 1,
   UTC (YearFromTime monthDate) (MonthFromTime monthDate + 1) 1).

Record InvoiceItem : Type := {
  billedMonth : Z;
  lineTotalCents : Z;
  paidCents : option Z
}.

Record Invoice : Type := {
  items : list InvoiceItem
}.

(** [inv.items.reduce((s, i) => s + i.lineTotalCents, 0)] *)
Definition subtotalOf (its : list InvoiceItem) : Z :=
  fold_left (fun s i => s + lineTotalCents i) its 0.

(** [inv.items.reduce((s, i) => s + (i.paidCents ?? 0), 0)] *)
Definition paidOf (its : list InvoiceItem) : Z :=
  fold_left (fun s i => s + default 0 (paidCents i)) its 0.

(** Lines 68-72: one entry per group, under the status or ['unknown']. *)
Record PaymentStatusGroup : Type := {
  paymentStatus : option string;
  groupCount : Z
}.

Definition statusKey (g : PaymentStatusGroup) : string :=
  default "unknown"%string (paymentStatus g).

Definition paymentStatusDistribution (groups : list PaymentStatusGroup)
  : gmap string Z :=
  fold_left (fun dist g => write dist (statusKey g) (groupCount g)) groups ∅.

Record CurrentMonth : Type := {
  cm_invoicedCents : Z;
  cm_paidCents : Z;
  cm_remainingCents : Z;
  cm_paymentRate : float
}.

(** Lines 81-98: the two accumulators run over every item of every invoice
    of [monthInvoices]; the rate is guarded by [invoiced > 0]. *)
Definition currentMonthInvoicedCents (monthInvoices : list Invoice) : Z :=
  fold_left (fun acc inv => acc + subtotalOf (items inv)) monthInvoices 0.

Definition currentMonthPaidCents (monthInvoices : list Invoice) : Z :=
  fold_left (fun acc inv => acc + paidOf (items inv)) monthInvoices 0.

Definition currentMonth (monthInvoices : list Invoice) : CurrentMonth :=
  let invoiced := currentMonthInvoicedCents monthInvoices in
  let paid := currentMonthPaidCents monthInvoices in
  {| cm_invoicedCents := invoiced;
     cm_paidCents := paid;
     cm_remainingCents := invoiced - paid;
     cm_paymentRate :=
       if 0 <? invoiced then divide paid invoiced else 0%float |}.

(** Lines 105-110: overdue amount, clamped per invoice. *)
Definition overdueAmountCents (overdueInvoices : list Invoice) : Z :=
  fold_left
    (fun acc inv =>
       acc + Z.max 0 (subtotalOf (items inv) - paidOf (items inv)))
    overdueInvoices 0.

Inductive PricingMode : Type := PER_STUDENT | FIXED_TOTAL.

Record RawClassTeacherUser : Type := {
  firstName : option string;
  lastName : option string
}.

Record RawClassTeacher : Type := {
  user : option RawClassTeacherUser
}.

(** [RawClass]; a student of the class is represented by its identifier,
    only the length of the array is read. *)
Record RawClass : Type := {
  id : string;
  name : string;
  pricingMode : PricingMode;
  monthlyPriceCents : option Z;
  fixedMonthlyPriceCents : option Z;
  students : option (list string);
  teacher : option RawClassTeacher
}.

(** [c.students?.length || 0] *)
Definition studentCount (c : RawClass) : Z :=
  match students c with
  | Some l => Z.of_nat (length l)
  | None => 0
  end.

(** Lines 154-157. *)
Definition estimatedRevenueCents (c : RawClass) : Z :=
  match pricingMode c with
  | FIXED_TOTAL => default 0 (fixedMonthlyPriceCents c)
  | PER_STUDENT => default 0 (monthlyPriceCents c) * studentCount c
  end.

(** [`${u.firstName ?? ''} ${u.lastName ?? ''}`.trim()] *)
Definition fullName (u : RawClassTeacherUser) : string :=
  trim (default ""%string (firstName u) ++ " " ++ default ""%string (lastName u)).

(** [c.teacher?.user ? ... : undefined] *)
Definition teacherNameOf (t : option RawClassTeacher) : option string :=
  match t with
  | Some t' => match user t' with
               | Some u => Some (fullName u)
               | None => None
               end
  | None => None
  end.

(** The account behind an invoice or a payment. *)
Record Account : Type := {
  acc_firstName : option string;
  acc_lastName : option string;
  acc_email : string
}.

(** Lines 311-314 and 322-325:
    [`${u.firstName ?? ''} ${u.lastName ?? ''}`.trim() || u.email]. *)
Definition displayName (u : Account) : string :=
  let n := trim (default ""%string (acc_firstName u) ++ " "
                 ++ default ""%string (acc_lastName u)) in
  if truthy n then n else acc_email u.

(** An invoice as fetched for the list of recent invoices; [ri_account] is
    [inv.student?.user]. *)
Record RecentInvoice : Type := {
  ri_id : string;
  ri_number : string;
  ri_issueDate : Z;
  ri_status : string;
  ri_account : option Account;
  ri_items : list InvoiceItem
}.

Record RecentInvoiceOut : Type := {
  rio_id : string;
  rio_number : string;
  rio_issueDate : Z;
  rio_status : string;
  rio_student : option string;
  rio_subtotalCents : Z;
  rio_paidCents : Z
}.

(** Lines 306-317. *)
Definition recentInvoiceOut (inv : RecentInvoice) : RecentInvoiceOut :=
  {| rio_id := ri_id inv;
     rio_number := ri_number inv;
     rio_issueDate := ri_issueDate inv;
     rio_status := ri_status inv;
     rio_student := match ri_account inv with
                    | Some u => Some (displayName u)
                    | None => None
                    end;
     rio_subtotalCents := subtotalOf (ri_items inv);
     rio_paidCents := paidOf (ri_items inv) |}.

Record TopClass : Type := {
  tc_id : string;
  tc_name : string;
  tc_teacher : option string;
  tc_studentCount : Z;
  tc_pricingMode : PricingMode;
  tc_estimatedRevenueCents : Z
}.

(** Lines 152-169: the entry built for one class. *)
Definition topClassEntry (c : RawClass) : TopClass :=
  {| tc_id := id c;
     tc_name := name c;
     tc_teacher := teacherNameOf (teacher c);
     tc_studentCount := studentCount c;
     tc_pricingMode := pricingMode c;
     tc_estimatedRevenueCents := estimatedRevenueCents c |}.

(** [(a, b) => b.studentCount - a.studentCount] *)
Definition byStudentCountDesc (a b : TopClass) : Z :=
  tc_studentCount b - tc_studentCount a.

(** Lines 151-171: [.map(...).sort(...).slice(0, 5)]. *)
Definition topClasses (topClassesRaw : list RawClass) : list TopClass :=
  firstn 5 (sort byStudentCountDesc (map topClassEntry topClassesRaw)).

(** The academic hierarchy as included with a student's classes; every
    link of [c.subject?.track?.level?.name] may be missing. *)
Record Level : Type := { level_name : option string }.
Record Track : Type := { level : option Level }.
Record Subject : Type := { track : option Track }.
Record StudentClass : Type := { subject : option Subject }.
Record Student : Type := { classes : list StudentClass }.

(** [c.subject?.track?.level?.name] *)
Definition levelNameOf (c : StudentClass) : option string :=
  match subject c with
  | Some sb => match track sb with
               | Some tr => match level tr with
                            | Some lv => level_name lv
                            | None => None
                            end
               | None => None
               end
  | None => None
  end.

(** [.filter((n) => !!n)]: missing and empty names are dropped. *)
Definition keepName (n : option string) : list string :=
  match n with
  | Some s => if truthy s then [s] else []
  | None => []
  end.

(** [new Set<string>(names)]: the distinct names in order of first
    insertion, which is the order [Set.prototype.forEach] visits. *)
Definition setAdd (acc : list string) (x : string) : list string :=
  if existsb (String.eqb x) acc then acc else acc ++ [x].

Definition newSet (names : list string) : list string :=
  fold_left setAdd names [].

Definition levelNames (s : Student) : list string :=
  newSet (flat_map (fun c => keepName (levelNameOf c)) (classes s)).

(** [monthMap[mk]?.invoicedCents || 0] *)
Definition orZero (v : option Z) : Z :=
  match v with
  | Some n => if n =? 0 then 0 else n
  | None => 0
  end.

(** What a property of the histogram holds: a number, or a string once a
    member inherited from [Object.prototype] got in the way. *)
Inductive Cell : Type :=
| Num (n : Z)
| Str (s : string).

(** [h[k] = (h[k] || 0) + 1] on the plain object [{}].  An inherited
    function or the prototype object is truthy, and adding 1 to it
    concatenates: the cell becomes a string. *)
Definition increment (k : string) (h : gmap string Cell) : gmap string Cell :=
  write h k
    match read h k with
    | Own (Num n) => Num ((if n =? 0 then 0 else n) + 1)
    | Own (Str s) => if truthy s then Str (s ++ "1") else Num 1
    | InheritedFunction => Str (nativeSource k ++ "1")
    | PrototypeObject => Str "[object Object]1"
    | Absent => Num 1
    end.

(** Lines 184-198: the body of the [forEach] for one student. *)
Definition countStudent (h : gmap string Cell) (s : Student)
  : gmap string Cell :=
  let names := levelNames s in
  if (length names =? 0)%nat then increment "Unassigned" h
  else fold_left (fun h' lvl => increment lvl h') names h.

Definition studentsByLevel (studentsWithClasses : list Student)
  : gmap string Cell :=
  fold_left countStudent studentsWithClasses ∅.

(** Lines 207-216: invoice items folded into totals per month key. *)
Record MonthTotals : Type := {
  mt_invoicedCents : Z;
  mt_paidCents : Z
}.

Definition addItem (monthMap : gmap string MonthTotals) (item : InvoiceItem)
  : gmap string MonthTotals :=
  let k := monthKey (Some (billedMonth item)) in
  let cur := default {| mt_invoicedCents := 0; mt_paidCents := 0 |}
               (monthMap !! k) in
  <[k := {| mt_invoicedCents := mt_invoicedCents cur + lineTotalCents item;
            mt_paidCents := mt_paidCents cur + default 0 (paidCents item) |}]>
    monthMap.

Definition monthMapOf (invoiceItems : list InvoiceItem)
  : gmap string MonthTotals :=
  fold_left addItem invoiceItems ∅.

Record MonthBucket : Type := {
  mb_month : string;
  mb_invoicedCents : Z;
  mb_paidCents : Z
}.

(** Lines 223-231: the bucket pushed for [i] months before the month of
    [now]. *)
Definition monthBucket (now : Z) (monthMap : gmap string MonthTotals) (i : Z)
  : MonthBucket :=
  let d := UTC (YearFromTime now) (MonthFromTime now - i) 1 in
  let mk := monthKey d in
  {| mb_month := mk;
     mb_invoicedCents := orZero (mt_invoicedCents <$> monthMap !! mk);
     mb_paidCents := orZero (mt_paidCents <$> monthMap !! mk) |}.

(** Lines 217-232: [for (let i = 5; i >= 0; i--)]. *)
Definition monthlyRevenue (now : Z) (invoiceItems : list InvoiceItem)
  : list MonthBucket :=
  map (monthBucket now (monthMapOf invoiceItems)) [5; 4; 3; 2; 1; 0].

(** A recurring time slot with the class included with it. *)
Record ClassTimeClass : Type := {
  ctc_name : option string;
  ctc_teacher : option RawClassTeacher
}.

Record ClassTime : Type := {
  ct_id : string;
  ct_classId : string;
  dayOfWeek : Z;
  startMinutes : Z;
  endMinutes : Z;
  ct_class : option ClassTimeClass
}.

Record Session : Type := {
  s_id : string;
  s_classId : string;
  s_className : string;
  s_teacher : option string;
  s_start : string;
  s_end : string;
  s_dayOfWeek : Z
}.

(** [clsInfo.class?.name || 'Unnamed'] *)
Definition classNameOf (ct : ClassTime) : string :=
  match ct_class ct with
  | Some c => match ctc_name c with
              | Some n => if truthy n then n else "Unnamed"
              | None => "Unnamed"
              end
  | None => "Unnamed"
  end.

(** [clsInfo.class?.teacher?.user], then the trimmed full name. *)
Definition sessionTeacherOf (ct : ClassTime) : option string :=
  match ct_class ct with
  | Some c => teacherNameOf (ctc_teacher c)
  | None => None
  end.

Definition horizon : Z := 7.

(** Lines 250-286: the body of the inner loop, giving the sessions to
    push (none or one).  The three [toISOString] calls are evaluated in
    the order of the object literal. *)
Definition sessionsAt (now : Z) (ct : ClassTime) (offset : Z)
  : Completion (list Session) :=
  let date :=
    UTC (YearFromTime now) (MonthFromTime now) (DateFromTime now + offset) in
  if utcDayIs date (dayOfWeek ct) then
    let start := setUTCMinutes date (startMinutes ct) 0 0 in
    let end_ := setUTCMinutes date (endMinutes ct) 0 0 in
    match toISOString date with
    | ThrowRangeError => ThrowRangeError
    | Normal dateIso =>
        match toISOString start with
        | ThrowRangeError => ThrowRangeError
        | Normal startIso =>
            match toISOString end_ with
            | ThrowRangeError => ThrowRangeError
            | Normal endIso =>
                Normal
                  [ {| s_id := ct_id ct ++ "-" ++ splitHead "T" dateIso;
                       s_classId := ct_classId ct;
                       s_className := classNameOf ct;
                       s_teacher := sessionTeacherOf ct;
                       s_start := startIso;
                       s_end := endIso;
                       s_dayOfWeek := dayOfWeek ct |} ]
            end
        end
    end
  else Normal [].

(** [for (let offset = ...; offset < horizon; offset++)], with the number
    of rounds left as the structural argument. *)
Fixpoint forOffsets (now : Z) (ct : ClassTime) (rounds : nat) (offset : Z)
  (acc : list Session) : Completion (list Session) :=
  match rounds with
  | O => Normal acc
  | S k =>
      match sessionsAt now ct offset with
      | ThrowRangeError => ThrowRangeError
      | Normal pushed => forOffsets now ct k (offset + 1) (acc ++ pushed)
      end
  end.

(** [for (const ct of classTimes)] *)
Fixpoint forClassTimes (now : Z) (classTimes : list ClassTime)
  (acc : list Session) : Completion (list Session) :=
  match classTimes with
  | [] => Normal acc
  | ct :: rest =>
      match forOffsets now ct (Z.to_nat horizon) 0 acc with
      | ThrowRangeError => ThrowRangeError
      | Normal acc' => forClassTimes now rest acc'
      end
  end.

(** [(a, b) => a.start.localeCompare(b.start)] *)
Definition byStart (a b : Session) : Z := localeCompare (s_start a) (s_start b).

(** Lines 238-289: the expansion and the sort. *)
Definition upcomingSessions (now : Z) (classTimes : list ClassTime)
  : Completion (list Session) :=
  match forClassTimes now classTimes [] with
  | ThrowRangeError => ThrowRangeError
  | Normal pushed => Normal (sort byStart pushed)
  end.

(** Line 336: [upcomingSessions.slice(0, 15)]. *)
Definition scheduleUpcoming (now : Z) (classTimes : list ClassTime)
  : Completion (list Session) :=
  match upcomingSessions now classTimes with
  | ThrowRangeError => ThrowRangeError
  | Normal l => Normal (firstn 15 l)
  end.

End Dashboard.

(** ** teachers.service.ts *)

Module Teachers.
Local Open Scope Z_scope.
Import JS.

Record UserRow : Type := {
  firstName : option string;
  lastName : option string;
  email : option string
}.

Record StudentRow : Type := {
  st_id : string;
  st_user : option UserRow
}.

Record LevelRow : Type := { level_name : string }.
Record TrackRow : Type := { track_name : string; level : option LevelRow }.
Record SubjectRow : Type := { subject_name : string; track : option TrackRow }.

Record ClassTimeRow : Type := {
  ct_id : string;
  dayOfWeek : Z;
  startMinutes : Z;
  endMinutes : Z
}.

Record StudentPriceOverride : Type := {
  studentId : string;
  classId : string;
  priceOverrideCents : Z
}.

(** [RawCls]; here the pricing mode is a plain string. *)
Record RawCls : Type := {
  id : string;
  name : string;
  pricingMode : string;
  monthlyPriceCents : option Z;
  fixedMonthlyPriceCents : option Z;
  teacherFixedMonthlyPayCents : option Z;
  students : list StudentRow;
  subject : option SubjectRow;
  classTimes : option (list ClassTimeRow);
  studentPriceOverrides : list StudentPriceOverride
}.

Definition studentCount (c : RawCls) : Z := Z.of_nat (length (students c)).

Definition isFixedTotal (c : RawCls) : bool :=
  String.eqb (pricingMode c) "FIXED_TOTAL".

(** Lines 187-190. *)
Definition baseRevenue (c : RawCls) : Z :=
  if isFixedTotal c then default 0 (fixedMonthlyPriceCents c)
  else default 0 (monthlyPriceCents c) * studentCount c.

(** Lines 191-194. *)
Definition effectivePricePerStudent (c : RawCls) : Z :=
  if isFixedTotal c then default 0 (fixedMonthlyPriceCents c)
  else default 0 (monthlyPriceCents c).

(** [c.subject?.track] and [c.subject?.track?.level?.name] *)
Definition trackOf (c : RawCls) : option TrackRow :=
  match subject c with
  | Some sb => track sb
  | None => None
  end.

(** Line 184: [c.subject?.track?.level?.name || 'Uncategorized']. *)
Definition levelNameOf (c : RawCls) : string :=
  match trackOf c with
  | Some tr => match level tr with
               | Some lv => if truthy (level_name lv) then level_name lv
                            else "Uncategorized"
               | None => "Uncategorized"
               end
  | None => "Uncategorized"
  end.

Record StudentOut : Type := {
  so_id : string;
  so_firstName : option string;
  so_lastName : option string;
  so_email : option string
}.

(** Lines 222-232: [s.user?.firstName] and the like. *)
Definition studentOut (s : StudentRow) : StudentOut :=
  {| so_id := st_id s;
     so_firstName := match st_user s with Some u => firstName u | None => None end;
     so_lastName := match st_user s with Some u => lastName u | None => None end;
     so_email := match st_user s with Some u => email u | None => None end |}.

Record ClassOut : Type := {
  co_id : string;
  co_name : string;
  co_subject : option string;
  co_track : option string;
  co_level : string;
  co_studentCount : Z;
  co_pricingMode : string;
  co_monthlyPriceCents : option Z;
  co_fixedMonthlyPriceCents : option Z;
  co_teacherFixedMonthlyPayCents : option Z;
  co_overridesCount : Z;
  co_totalMonthlyRevenueCents : Z;
  co_effectivePricePerStudentCents : Z;
  co_classTimes : option (list ClassTimeRow);
  co_students : list StudentOut
}.

(** Lines 183-234: the entry built for one class. *)
Definition classOut (c : RawCls) : ClassOut :=
  {| co_id := id c;
     co_name := name c;
     co_subject := match subject c with
                   | Some sb => Some (subject_name sb)
                   | None => None
                   end;
     co_track := match trackOf c with
                 | Some tr => Some (track_name tr)
                 | None => None
                 end;
     co_level := levelNameOf c;
     co_studentCount := studentCount c;
     co_pricingMode := pricingMode c;
     co_monthlyPriceCents := monthlyPriceCents c;
     co_fixedMonthlyPriceCents := fixedMonthlyPriceCents c;
     co_teacherFixedMonthlyPayCents := teacherFixedMonthlyPayCents c;
     co_overridesCount := Z.of_nat (length (studentPriceOverrides c));
     co_totalMonthlyRevenueCents := baseRevenue c;
     co_effectivePricePerStudentCents := effectivePricePerStudent c;
     co_classTimes := classTimes c;
     co_students := map studentOut (students c) |}.




Inductive Outcome (A : Type) : Type :=
| Returned (a : A)
| NotFoundException (message : string)
| BadRequestException (message : string)
| TypeError.
Arguments Returned {A} a.
Arguments NotFoundException {A} message.
Arguments BadRequestException {A} message.
Arguments TypeError {A}.


(** The payload of [create]: the account fields, found either at the top
    level or under [user], and the teacher fields of the top level.  A
    field that may be absent, null or set is an [Optional]. *)
Record UserPayload : Type := {
  up_firstName : option string;
  up_lastName : option string;
  up_email : option string;
  up_password : option string
}.

Inductive Optional (A : Type) : Type :=
| Undefined
| Null
| Value (a : A).
Arguments Undefined {A}.
Arguments Null {A}.
Arguments Value {A} a.

Record TeacherPayload : Type := {
  tp_birthDate : option string;
  tp_address : Optional string;
  tp_phone : Optional string;
  tp_hiringDate : option string;
  tp_subject : Optional string
}.

Record CreateInput : Type := {
  in_user : option UserPayload;
  in_top : UserPayload;
  in_teacher : TeacherPayload
}.

Definition noTeacherFields : TeacherPayload :=
  {| tp_birthDate := None; tp_address := Undefined; tp_phone := Undefined;
     tp_hiringDate := None; tp_subject := Undefined |}.

(** [if (x) data.f = new Date(x)]: kept when truthy. *)
Definition dateField (x : option string) : option string :=
  match x with
  | Some d => if truthy d then Some d else None
  | None => None
  end.

(** [if (x !== undefined) data.f = x ?? null]: absent, null or a value. *)
Definition nullableField (x : Optional string) : option (option string) :=
  match x with
  | Undefined => None
  | Null => Some None
  | Value v => Some (Some v)
  end.

Record TeacherCreateData : Type := {
  tcd_birthDate : option string;
  tcd_address : option (option string);
  tcd_phone : option (option string);
  tcd_hiringDate : option string;
  tcd_subject : option (option string)
}.

Record UserCreateData : Type := {
  ucd_firstName : string;
  ucd_lastName : string;
  ucd_email : string;
  ucd_password : string;
  ucd_role : string;
  ucd_teacher : TeacherCreateData
}.

Record Created : Type := {
  cr_data : UserCreateData;
  cr_tempPassword : option string
}.

(** Lines 54-56. *)
Definition userInputOf (input : CreateInput) : UserPayload :=
  match in_user input with
  | Some u => u
  | None => in_top input
  end.

Definition teacherInputOf (input : CreateInput) : TeacherPayload :=
  match in_user input with
  | Some _ => in_teacher input
  | None => noTeacherFields
  end.

(** Lines 62-65; [generated] is [randomBytes(16).toString('base64url')]. *)
Definition plainPasswordOf (generated : string) (u : UserPayload) : string :=
  match up_password u with
  | Some p =>
      if truthy p && (0 <? String.length (trim p))%nat then p else generated
  | None => generated
  end.

(** Lines 52-99.  [hash] is the password hash, [generated] the random
    password; the record handed to the data layer stands for the row it
    creates. *)
Definition create (hash : string -> string) (generated : string)
  (input : CreateInput) : Outcome Created :=
  let userInput := userInputOf input in
  let teacherInput := teacherInputOf input in
  match up_email userInput with
  | None => BadRequestException "Email is required"
  | Some e =>
      if truthy e then
        let plainPassword := plainPasswordOf generated userInput in
        Returned
          {| cr_data :=
               {| ucd_firstName := default ""%string (up_firstName userInput);
                  ucd_lastName := default ""%string (up_lastName userInput);
                  ucd_email := e;
                  ucd_password := hash plainPassword;
                  ucd_role := "teacher";
                  ucd_teacher :=
                    {| tcd_birthDate := dateField (tp_birthDate teacherInput);
                       tcd_address := nullableField (tp_address teacherInput);
                       tcd_phone := nullableField (tp_phone teacherInput);
                       tcd_hiringDate :=
                         dateField (tp_hiringDate teacherInput);
                       tcd_subject :=
                         nullableField (tp_subject teacherInput) |} |};
             cr_tempPassword :=
               match up_password userInput with
               | Some p => if truthy p then None else Some plainPassword
               | None => Some plainPassword
               end |}
      else BadRequestException "Email is required"
  end.

End Teachers.

(** ** classes.service.ts *)

Module Classes.
Local Open Scope Z_scope.

(** The class as [findOne] fetches it, with the fields the income reads. *)
Record Klass : Type := {
  pricingMode : string;
  monthlyPriceCents : option Z;
  fixedMonthlyPriceCents : option Z;
  students : option (list string)
}.

(** [findOne]: the total monthly income,
    [(klass.monthlyPriceCents ?? 0) * (klass.students?.length ?? 0)] unless
    the mode is FIXED_TOTAL. *)
Definition monthlyIncome (klass : Klass) : Z :=
  if String.eqb (pricingMode klass) "FIXED_TOTAL"
  then default 0 (fixedMonthlyPriceCents klass)
  else default 0 (monthlyPriceCents klass)
       * match students klass with
         | Some l => Z.of_nat (length l)
         | None => 0
         end.

Inductive Outcome (A : Type) : Type :=
| Returned (a : A)
| NotFoundException (message : string).
Arguments Returned {A} a.
Arguments NotFoundException {A} message.

Record CreateClassTimeDto : Type := {
  c_dayOfWeek : Z;
  c_startMinutes : Z;
  c_endMinutes : Z
}.

Record UpdateClassTimeDto : Type := {
  u_dayOfWeek : option Z;
  u_startMinutes : option Z;
  u_endMinutes : option Z
}.

(** A stored time slot. *)
Record ClassTimeRow : Type := {
  id : string;
  classId : string;
  dayOfWeek : Z;
  startMinutes : Z;
  endMinutes : Z
}.

(** [ensureClass]: [classFound] tells whether the class exists. *)
Definition ensureClass (classFound : bool) : Outcome unit :=
  if classFound then Returned tt else NotFoundException "Class not found".

(** [addTime]; [newId] is the identifier the data layer gives the row. *)
Definition addTime (classFound : bool) (newId : string) (classId_ : string)
  (dto : CreateClassTimeDto) : Outcome ClassTimeRow :=
  match ensureClass classFound with
  | NotFoundException m => NotFoundException m
  | Returned _ =>
      if c_endMinutes dto <=? c_startMinutes dto then
        NotFoundException "endMinutes must be greater than startMinutes"
      else
        Returned {| id := newId; classId := classId_;
                    dayOfWeek := c_dayOfWeek dto;
                    startMinutes := c_startMinutes dto;
                    endMinutes := c_endMinutes dto |}
  end.

(** [updateTime]; [time] is what [findUnique] gave for the identifier.
    The row after the update has the fields of the payload where they are
    given and the stored ones elsewhere. *)
Definition updateTime (classFound : bool) (time : option ClassTimeRow)
  (classId_ : string) (dto : UpdateClassTimeDto) : Outcome ClassTimeRow :=
  match ensureClass classFound with
  | NotFoundException m => NotFoundException m
  | Returned _ =>
      match time with
      | None => NotFoundException "Time not found"
      | Some t =>
          if negb (String.eqb (classId t) classId_) then
            NotFoundException "Time not found"
          else
            let next_dayOfWeek := default (dayOfWeek t) (u_dayOfWeek dto) in
            let next_startMinutes :=
              default (startMinutes t) (u_startMinutes dto) in
            let next_endMinutes := default (endMinutes t) (u_endMinutes dto) in
            if next_endMinutes <=? next_startMinutes then
              NotFoundException "endMinutes must be greater than startMinutes"
            else
              Returned {| id := id t; classId := classId t;
                          dayOfWeek := next_dayOfWeek;
                          startMinutes := next_startMinutes;
                          endMinutes := next_endMinutes |}
      end
  end.

End Classes.

(** * Properties *)

(** ** The calendar *)

(** Case analysis on a month number known to lie between 0 and 11. *)
Ltac month_cases m H :=
  assert (m = 0 \/ m = 1 \/ m = 2 \/ m = 3 \/ m = 4 \/ m = 5 \/
          m = 6 \/ m = 7 \/ m = 8 \/ m = 9 \/ m = 10 \/ m = 11)%Z as H by lia.

Section Calendar.
Local Open Scope Z_scope.
Import JSDate.

Lemma DayFromYear_bounds (y : Z) :
  146097 * (y - 1970) - 506 <= 400 * DayFromYear y
  <= 146097 * (y - 1970) + 589.
Proof. unfold DayFromYear. Z.div_mod_to_equations. lia. Qed.

(** [YearFromDay d] is the year that contains day [d]. *)
Lemma YearFromDay_spec (d : Z) :
  DayFromYear (YearFromDay d) <= d < DayFromYear (YearFromDay d + 1).
Proof.
  unfold YearFromDay.
  set (g := 1970 + 400 * d / 146097).
  assert (Hg : 146097 * (g - 1970) <= 400 * d
               < 146097 * (g - 1970) + 146097).
  { unfold g. Z.div_mod_to_equations. lia. }
  pose proof (DayFromYear_bounds (g - 1)).
  pose proof (DayFromYear_bounds (g + 2)).
  destruct (Z.ltb_spec d (DayFromYear g)).
  - replace (g - 1 + 1) with g by lia. lia.
  - destruct (Z.leb_spec (DayFromYear (g + 1)) d).
    + replace (g + 1 + 1) with (g + 2) by lia. lia.
    + lia.
Qed.

Lemma DayFromYear_step (y : Z) :
  DayFromYear (y + 1) = DayFromYear y + DaysInYear y.
Proof.
  unfold DayFromYear, DaysInYear.
  destruct (Z.eqb_spec (y mod 4) 0), (Z.eqb_spec (y mod 100) 0),
    (Z.eqb_spec (y mod 400) 0); cbv [negb];
    Z.div_mod_to_equations; lia.
Qed.

Lemma DayFromYear_mono (y y' : Z) :
  y <= y' -> DayFromYear y <= DayFromYear y'.
Proof. unfold DayFromYear. intros. Z.div_mod_to_equations. lia. Qed.

Lemma YearFromDay_unique (y d : Z) :
  DayFromYear y <= d < DayFromYear (y + 1) -> YearFromDay d = y.
Proof.
  intros H. pose proof (YearFromDay_spec d) as S.
  destruct (Z.lt_trichotomy (YearFromDay d) y) as [L|[E|G]]; [|exact E|].
  - pose proof (DayFromYear_mono (YearFromDay d + 1) y ltac:(lia)). lia.
  - pose proof (DayFromYear_mono (y + 1) (YearFromDay d) ltac:(lia)). lia.
Qed.

Lemma YearFromDay_mono (d d' : Z) : d <= d' -> YearFromDay d <= YearFromDay d'.
Proof.
  intros H. pose proof (YearFromDay_spec d). pose proof (YearFromDay_spec d').
  destruct (Z.le_gt_cases (YearFromDay d) (YearFromDay d')); [assumption|].
  pose proof (DayFromYear_mono (YearFromDay d' + 1) (YearFromDay d)
                ltac:(lia)). lia.
Qed.

Lemma DaysInYear_cases (y : Z) : DaysInYear y = 365 \/ DaysInYear y = 366.
Proof.
  unfold DaysInYear.
  destruct (y mod 4 =? 0), (y mod 100 =? 0), (y mod 400 =? 0); cbv [negb];
    auto.
Qed.

Lemma InLeapYear_cases (t : Z) :
  (InLeapYear t = 0 /\ DaysInYear (YearFromTime t) = 365) \/
  (InLeapYear t = 1 /\ DaysInYear (YearFromTime t) = 366).
Proof.
  unfold InLeapYear. destruct (DaysInYear_cases (YearFromTime t)) as [E|E];
    rewrite E; [left | right]; split; reflexivity.
Qed.

Lemma DayWithinYear_range (t : Z) :
  0 <= DayWithinYear t < 365 + InLeapYear t.
Proof.
  unfold DayWithinYear, YearFromTime.
  pose proof (YearFromDay_spec (Day t)) as S.
  rewrite DayFromYear_step in S.
  destruct (InLeapYear_cases t) as [[E1 E2]|[E1 E2]];
    unfold YearFromTime in E2; rewrite E1; lia.
Qed.

Lemma MonthFromTime_range (t : Z) : 0 <= MonthFromTime t <= 11.
Proof.
  unfold MonthFromTime.
  repeat match goal with
         | |- context [if ?c then _ else _] => destruct c
         end; lia.
Qed.

(** The day of the month counts on from the day the month starts. *)
Lemma monthStart_DateFromTime (t : Z) :
  monthStart (InLeapYear t) (MonthFromTime t) + DateFromTime t - 1
  = DayWithinYear t.
Proof.
  unfold DateFromTime, MonthFromTime.
  repeat match goal with
         | |- context [if ?c then _ else _] => destruct c
         end; cbn [monthStart]; lia.
Qed.

Lemma DateFromTime_range (t : Z) : 1 <= DateFromTime t <= 31.
Proof.
  pose proof (DayWithinYear_range t) as R.
  unfold DateFromTime, MonthFromTime.
  destruct (InLeapYear_cases t) as [[E _]|[E _]]; rewrite E in *;
  repeat match goal with
         | |- context [if ?c <? ?d then _ else _] =>
             destruct (Z.ltb_spec c d)
         end; lia.
Qed.

(** Day overflow in [MakeDay]: the fields of a time value, with [k] added
    to the day of the month, make the day [k] days later. *)
Lemma MakeDay_of_fields (t k : Z) :
  MakeDay (YearFromTime t) (MonthFromTime t) (DateFromTime t + k)
  = Day t + k.
Proof.
  pose proof (MonthFromTime_range t) as R.
  pose proof (monthStart_DateFromTime t) as M.
  unfold MakeDay.
  replace (MonthFromTime t / 12) with 0 by (Z.div_mod_to_equations; lia).
  replace (MonthFromTime t mod 12) with (MonthFromTime t)
    by (Z.div_mod_to_equations; lia).
  rewrite Z.add_0_r. fold (InLeapYear t).
  unfold DayWithinYear in M. lia.
Qed.

Lemma Day_MakeDate (d r : Z) :
  0 <= r < msPerDay -> Day (MakeDate d r) = d.
Proof.
  intros H. unfold Day, MakeDate, msPerDay in *.
  Z.div_mod_to_equations. lia.
Qed.

Lemma YearFromTime_epoch (t : Z) : 0 <= t -> 1970 <= YearFromTime t.
Proof.
  intros H. unfold YearFromTime.
  replace 1970 with (YearFromDay 0) by reflexivity.
  apply YearFromDay_mono. unfold Day, msPerDay.
  Z.div_mod_to_equations. lia.
Qed.

(** [MakeDay] meets its specification: the day it returns for the first
    of a month lies in the year and month asked for, with months outside
    0..11 carried into the year. *)
Lemma fields_of_MakeDay (year month : Z) :
  let t := MakeDate (MakeDay year month 1) 0 in
  YearFromTime t = year + month / 12 /\
  MonthFromTime t = month mod 12 /\
  DateFromTime t = 1.
Proof.
  cbn zeta.
  set (t := MakeDate (MakeDay year month 1) 0).
  assert (Hd : Day t = MakeDay year month 1)
    by (apply Day_MakeDate; unfold msPerDay; lia).
  set (ym := year + month / 12) in *.
  set (mn := month mod 12) in *.
  assert (Hmn : 0 <= mn < 12) by (unfold mn; Z.div_mod_to_equations; lia).
  set (leap := if DaysInYear ym =? 366 then 1 else 0).
  assert (Hday : Day t = DayFromYear ym + monthStart leap mn).
  { rewrite Hd. unfold MakeDay. fold ym mn leap. lia. }
  assert (Hleap : (leap = 0 /\ DaysInYear ym = 365) \/
                  (leap = 1 /\ DaysInYear ym = 366)).
  { unfold leap. destruct (DaysInYear_cases ym) as [E|E]; rewrite E; auto. }
  assert (Hms : 0 <= monthStart leap mn < 365 + leap /\
                monthStart leap mn < DaysInYear ym).
  { assert (Hc : mn = 0 \/ mn = 1 \/ mn = 2 \/ mn = 3 \/ mn = 4 \/ mn = 5 \/
                 mn = 6 \/ mn = 7 \/ mn = 8 \/ mn = 9 \/ mn = 10 \/ mn = 11)
      by lia.
    destruct Hleap as [[-> ->]|[-> ->]];
      repeat (destruct Hc as [->|Hc]); try rewrite Hc;
      cbn [monthStart]; lia. }
  assert (Hy : YearFromTime t = ym).
  { unfold YearFromTime. apply YearFromDay_unique.
    rewrite DayFromYear_step, Hday. lia. }
  assert (Hl : InLeapYear t = leap).
  { unfold InLeapYear. now rewrite Hy. }
  assert (Hw : DayWithinYear t = monthStart leap mn).
  { unfold DayWithinYear. rewrite Hy, Hday. lia. }
  assert (Hm : MonthFromTime t = mn).
  { unfold MonthFromTime. rewrite Hw, Hl.
    assert (Hc : mn = 0 \/ mn = 1 \/ mn = 2 \/ mn = 3 \/ mn = 4 \/ mn = 5 \/
                 mn = 6 \/ mn = 7 \/ mn = 8 \/ mn = 9 \/ mn = 10 \/ mn = 11)
      by lia.
    destruct Hleap as [[-> _]|[-> _]];
      repeat (destruct Hc as [->|Hc]); try rewrite Hc; reflexivity. }
  split; [exact Hy|]. split; [exact Hm|].
  pose proof (monthStart_DateFromTime t) as M.
  rewrite Hl, Hm, Hw in M. lia.
Qed.

Lemma monthStart_mono (l a b : Z) :
  0 <= l <= 1 -> 0 <= a -> a <= b -> b <= 11 ->
  monthStart l a <= monthStart l b.
Proof.
  intros Hl Ha Hab Hb. month_cases a H. month_cases b H'.
  repeat (destruct H as [->|H]); try rewrite H in *;
    repeat (destruct H' as [->|H']); try rewrite H' in *;
    cbn [monthStart]; lia.
Qed.

Lemma YearFromTime_spec (t : Z) :
  DayFromYear (YearFromTime t) <= Day t < DayFromYear (YearFromTime t + 1).
Proof. apply YearFromDay_spec. Qed.

(** The first of a month at or before the month of [t] is not after [t]. *)
Lemma first_of_earlier_month (t i : Z) :
  0 <= i <= 11 ->
  MakeDay (YearFromTime t) (MonthFromTime t - i) 1 <= Day t.
Proof.
  intros Hi.
  pose proof (fields_of_MakeDay (YearFromTime t) (MonthFromTime t - i))
    as (Hy & Hm & Hd). cbn zeta in Hy, Hm, Hd.
  assert (HD : Day (MakeDate (MakeDay (YearFromTime t)
                                (MonthFromTime t - i) 1) 0)
               = MakeDay (YearFromTime t) (MonthFromTime t - i) 1)
    by (apply Day_MakeDate; unfold msPerDay; lia).
  rewrite <- HD.
  revert Hy Hm Hd.
  generalize (MakeDate (MakeDay (YearFromTime t) (MonthFromTime t - i) 1) 0).
  clear HD. intros u Hy Hm Hd.
  pose proof (MonthFromTime_range t) as RM.
  pose proof (YearFromTime_spec u) as Su.
  pose proof (YearFromTime_spec t) as St.
  destruct (Z.lt_ge_cases (MonthFromTime t - i) 0) as [Neg|Pos].
  - assert (E : (MonthFromTime t - i) / 12 = -1)
      by (Z.div_mod_to_equations; lia).
    rewrite E in Hy. rewrite Hy in Su.
    replace (YearFromTime t + -1 + 1) with (YearFromTime t) in Su by lia.
    lia.
  - assert (E : (MonthFromTime t - i) / 12 = 0)
      by (Z.div_mod_to_equations; lia).
    assert (E' : (MonthFromTime t - i) mod 12 = MonthFromTime t - i)
      by (Z.div_mod_to_equations; lia).
    rewrite E, Z.add_0_r in Hy. rewrite E' in Hm.
    pose proof (monthStart_DateFromTime u) as Mu.
    pose proof (monthStart_DateFromTime t) as Mt.
    pose proof (DateFromTime_range t) as Rd.
    assert (El : InLeapYear u = InLeapYear t)
      by (unfold InLeapYear; now rewrite Hy).
    rewrite El, Hm, Hd in Mu.
    assert (Hl : 0 <= InLeapYear t <= 1)
      by (destruct (InLeapYear_cases t) as [[-> _]|[-> _]]; lia).
    pose proof (monthStart_mono (InLeapYear t) (MonthFromTime t - i)
                  (MonthFromTime t) Hl Pos ltac:(lia) ltac:(lia)).
    unfold DayWithinYear in Mu, Mt. rewrite Hy in Mu. lia.
Qed.

End Calendar.

(** ** The stable sort *)

Section Sorting.
Context {A : Type} (cmp : A -> A -> Z).
Local Open Scope Z_scope.

Lemma insertBy_perm (x : A) (l : list A) :
  Permutation (JS.insertBy cmp x l) (x :: l).
Proof.
  induction l as [|y ys IH]; simpl.
  - apply Permutation_refl.
  - destruct (cmp x y <=? 0).
    + apply Permutation_refl.
    + eapply Permutation_trans; [apply perm_skip, IH | apply perm_swap].
Qed.

Lemma sort_perm (l : list A) : Permutation (JS.sort cmp l) l.
Proof.
  induction l as [|x xs IH]; simpl.
  - apply perm_nil.
  - eapply Permutation_trans; [apply insertBy_perm | apply perm_skip, IH].
Qed.

Lemma sort_length (l : list A) : length (JS.sort cmp l) = length l.
Proof. apply Permutation_length, sort_perm. Qed.

Lemma sort_In (l : list A) (x : A) : In x (JS.sort cmp l) <-> In x l.
Proof.
  split; apply Permutation_in; [|apply Permutation_sym]; apply sort_perm.
Qed.

(** Elements that the comparator never puts after one another keep their
    relative order. *)
Lemma insertBy_filter (P : A -> bool) (x : A) (l : list A) :
  (forall y, In y l -> P x = true -> P y = true -> cmp x y <= 0) ->
  List.filter P (JS.insertBy cmp x l) = List.filter P (x :: l).
Proof.
  induction l as [|y ys IH]; intros Hc; [reflexivity|].
  simpl. destruct (cmp x y <=? 0) eqn:E; [reflexivity|].
  apply Z.leb_gt in E.
  simpl. rewrite IH by (intros z Hz; apply Hc; now right).
  simpl. destruct (P x) eqn:Px, (P y) eqn:Py; try reflexivity.
  specialize (Hc y (or_introl eq_refl) eq_refl Py). lia.
Qed.

Lemma sort_stable (P : A -> bool) (l : list A) :
  (forall x y, P x = true -> P y = true -> cmp x y <= 0) ->
  List.filter P (JS.sort cmp l) = List.filter P l.
Proof.
  intros Hc. induction l as [|x xs IH]; [reflexivity|].
  simpl JS.sort. rewrite insertBy_filter by (intros; now apply Hc).
  simpl. now rewrite IH.
Qed.

Definition cmpLe (x y : A) : Prop := cmp x y <= 0.

Hypothesis cmp_total : forall x y, 0 < cmp x y -> cmp y x <= 0.
Hypothesis cmp_trans :
  forall x y z, cmp x y <= 0 -> cmp y z <= 0 -> cmp x z <= 0.

Lemma insertBy_sorted (x : A) (l : list A) :
  StronglySorted cmpLe l -> StronglySorted cmpLe (JS.insertBy cmp x l).
Proof.
  induction 1 as [|y ys Hs IH Hy]; simpl.
  - constructor; [constructor | constructor].
  - destruct (cmp x y <=? 0) eqn:E.
    + apply Z.leb_le in E. constructor; [now constructor|].
      constructor; [exact E|].
      rewrite !List.Forall_forall in *. intros z Hz.
      eapply cmp_trans; [exact E | now apply Hy].
    + apply Z.leb_gt in E. constructor; [exact IH|].
      rewrite !List.Forall_forall in *. intros z Hz.
      apply (Permutation_in _ (insertBy_perm x ys)) in Hz.
      destruct Hz as [<-|Hz]; [now apply cmp_total | now apply Hy].
Qed.

Lemma sort_sorted (l : list A) : StronglySorted cmpLe (JS.sort cmp l).
Proof.
  induction l as [|x xs IH]; simpl; [constructor | now apply insertBy_sorted].
Qed.

End Sorting.

Section Pricing.
Local Open Scope Z_scope.

(** C1. The monthly revenue of a class is its fixed total (0 when absent)
    under FIXED_TOTAL, whatever the enrolment, and the per-student price
    (0 when absent) times the enrolment under PER_STUDENT; this holds for
    the dashboard's estimate and for the teacher listing's base revenue. *)
Theorem computeMonthlyRevenue_by_mode :
  (forall c : Dashboard.RawClass,
      (Dashboard.pricingMode c = Dashboard.FIXED_TOTAL ->
       Dashboard.estimatedRevenueCents c
       = default 0 (Dashboard.fixedMonthlyPriceCents c)) /\
      (Dashboard.pricingMode c = Dashboard.PER_STUDENT ->
       Dashboard.estimatedRevenueCents c
       = default 0 (Dashboard.monthlyPriceCents c)
         * Dashboard.studentCount c)) /\
  (forall c : Teachers.RawCls,
      (Teachers.pricingMode c = "FIXED_TOTAL"%string ->
       Teachers.baseRevenue c
       = default 0 (Teachers.fixedMonthlyPriceCents c)) /\
      (Teachers.pricingMode c = "PER_STUDENT"%string ->
       Teachers.baseRevenue c
       = default 0 (Teachers.monthlyPriceCents c)
         * Z.of_nat (length (Teachers.students c)))).
Proof.
  split; intros c; split; intros Hm.
  - unfold Dashboard.estimatedRevenueCents. now rewrite Hm.
  - unfold Dashboard.estimatedRevenueCents. now rewrite Hm.
  - unfold Teachers.baseRevenue, Teachers.isFixedTotal. now rewrite Hm.
  - unfold Teachers.baseRevenue, Teachers.isFixedTotal. now rewrite Hm.
Qed.


Definition sampleFixedCls : Teachers.RawCls :=
  {| Teachers.id := "c2"; Teachers.name := "Physics";
     Teachers.pricingMode := "FIXED_TOTAL";
     Teachers.monthlyPriceCents := None;
     Teachers.fixedMonthlyPriceCents := Some 20000;
     Teachers.teacherFixedMonthlyPayCents := None;
     Teachers.students :=
       map (fun i => {| Teachers.st_id := i; Teachers.st_user := None |})
         ["s1"; "s2"; "s3"; "s4"]%string;
     Teachers.subject := None;
     Teachers.classTimes := None;
     Teachers.studentPriceOverrides := [] |}.

Definition samplePerStudentClass : Dashboard.RawClass :=
  {| Dashboard.id := "c1"; Dashboard.name := "Algebra";
     Dashboard.pricingMode := Dashboard.PER_STUDENT;
     Dashboard.monthlyPriceCents := Some 5000;
     Dashboard.fixedMonthlyPriceCents := None;
     Dashboard.students := Some ["s1"; "s2"; "s3"]%string;
     Dashboard.teacher := None |}.

Lemma computeMonthlyRevenue_by_mode_witness :
  Dashboard.estimatedRevenueCents samplePerStudentClass = 15000 /\
  Teachers.baseRevenue sampleFixedCls = 20000.
Proof.
  destruct computeMonthlyRevenue_by_mode as [HD HT]. split.
  - destruct (HD samplePerStudentClass) as [_ H]. rewrite H; reflexivity.
  - destruct (HT sampleFixedCls) as [H _]. rewrite H; reflexivity.
Defined.


End Pricing.

(** ** Current-month summary *)

Section Summary.
Local Open Scope Z_scope.
Import JS Dashboard.

Definition sumZ (l : list Z) : Z := fold_right Z.add 0 l.

Lemma fold_left_add_sumZ {B : Type} (f : B -> Z) (l : list B) (a : Z) :
  fold_left (fun s i => s + f i) l a = a + sumZ (map f l).
Proof.
  revert a. induction l as [|x xs IH]; intros a; simpl; [lia|].
  rewrite IH. lia.
Qed.

Lemma subtotalOf_sum (its : list InvoiceItem) :
  subtotalOf its = sumZ (map lineTotalCents its).
Proof. unfold subtotalOf. now rewrite fold_left_add_sumZ. Qed.

Lemma paidOf_sum (its : list InvoiceItem) :
  paidOf its = sumZ (map (fun i => default 0 (paidCents i)) its).
Proof. unfold paidOf. now rewrite fold_left_add_sumZ. Qed.

(** C7. In the current-month summary the remainder is invoiced minus paid,
    unclamped (negative when more was paid than invoiced); the payment
    rate is the double paid / invoiced when invoiced is positive and
    exactly 0 when invoiced is 0 (or less).  The division is evaluated
    only with a positive divisor: the rate is either the literal 0 or a
    quotient by a non-zero number. *)
Theorem currentMonth_rate_and_remainder (monthInvoices : list Invoice) :
  let r := currentMonth monthInvoices in
  cm_invoicedCents r
  = sumZ (map (fun inv => sumZ (map lineTotalCents (items inv)))
            monthInvoices) /\
  cm_paidCents r
  = sumZ (map (fun inv =>
                 sumZ (map (fun i => default 0 (paidCents i)) (items inv)))
            monthInvoices) /\
  cm_remainingCents r = cm_invoicedCents r - cm_paidCents r /\
  (0 < cm_invoicedCents r ->
   cm_paymentRate r
   = (ofZ (cm_paidCents r) / ofZ (cm_invoicedCents r))%float) /\
  (cm_invoicedCents r <= 0 -> cm_paymentRate r = 0%float) /\
  (cm_paymentRate r = 0%float \/
   (cm_invoicedCents r <> 0 /\
    cm_paymentRate r = divide (cm_paidCents r) (cm_invoicedCents r))) /\
  (cm_invoicedCents r < cm_paidCents r -> cm_remainingCents r < 0).
Proof.
  cbn zeta. unfold currentMonth; cbn [cm_invoicedCents cm_paidCents
    cm_remainingCents cm_paymentRate].
  split.
  { unfold currentMonthInvoicedCents.
    rewrite (fold_left_add_sumZ (fun inv => subtotalOf (items inv))).
    rewrite Z.add_0_l. f_equal. apply map_ext. intros inv.
    apply subtotalOf_sum. }
  split.
  { unfold currentMonthPaidCents.
    rewrite (fold_left_add_sumZ (fun inv => paidOf (items inv))).
    rewrite Z.add_0_l. f_equal. apply map_ext. intros inv.
    apply paidOf_sum. }
  set (i := currentMonthInvoicedCents monthInvoices).
  set (p := currentMonthPaidCents monthInvoices).
  split; [reflexivity|]. split.
  { intros Hi. apply Z.ltb_lt in Hi. now rewrite Hi. }
  split.
  { intros Hi. destruct (Z.ltb_spec 0 i); [lia | reflexivity]. }
  split; [|lia].
  destruct (Z.ltb_spec 0 i); [right; split; [lia | reflexivity] | now left].
Qed.

Definition overpaidInvoices : list Invoice :=
  [ {| items := [ {| billedMonth := 1740787200000;
                     lineTotalCents := 1000; paidCents := Some 400 |};
                  {| billedMonth := 1740787200000;
                     lineTotalCents := 500; paidCents := Some 1700 |} ] |} ].

Definition thirdPaidInvoices : list Invoice :=
  [ {| items := [ {| billedMonth := 1740787200000;
                     lineTotalCents := 300; paidCents := Some 100 |} ] |} ].

(** 2100 / 1500 and 100 / 300 as doubles; no invoice gives the rate 0,
    where 0 / 0 would not be a number. *)
Lemma currentMonth_rate_and_remainder_witness :
  cm_remainingCents (currentMonth overpaidInvoices) = -600 /\
  cm_paymentRate (currentMonth overpaidInvoices)
  = 0x1.6666666666666p+0%float /\
  cm_paymentRate (currentMonth thirdPaidInvoices)
  = 0x1.5555555555555p-2%float /\
  cm_paymentRate (currentMonth []) = 0%float /\
  PrimFloat.is_nan (divide 0 0) = true.
Proof.
  destruct (currentMonth_rate_and_remainder overpaidInvoices)
    as (_ & _ & H1 & H2 & _).
  destruct (currentMonth_rate_and_remainder thirdPaidInvoices)
    as (_ & _ & _ & H3 & _).
  destruct (currentMonth_rate_and_remainder []) as (_ & _ & _ & _ & H4 & _).
  split; [rewrite H1; reflexivity|].
  split; [rewrite H2; reflexivity|].
  split; [rewrite H3; reflexivity|].
  split; [apply H4; reflexivity | reflexivity].
Defined.

End Summary.

(** ** Top classes *)

Section TopClasses.
Local Open Scope Z_scope.
Import JS Dashboard.

Lemma In_firstn {B : Type} (n : nat) (l : list B) (x : B) :
  In x (firstn n l) -> In x l.
Proof.
  revert l. induction n as [|n IH]; intros [|y ys]; simpl; try tauto.
  intros [->|H]; [now left | right; now apply IH].
Qed.

Lemma StronglySorted_weaken {B : Type} (R S : B -> B -> Prop) (l : list B) :
  (forall x y, R x y -> S x y) -> StronglySorted R l -> StronglySorted S l.
Proof.
  intros HRS. induction 1 as [|x xs Hs IH Hx]; constructor; [exact IH|].
  eapply List.Forall_impl; [|exact Hx]. intros y. apply HRS.
Qed.

(** C8. The top-classes list is the first five entries of the stable
    descending sort, by number of enrolled students, of the per-class
    entries: the sorted list is a permutation of the entries, never
    increases in student count, and keeps entries of equal count in
    snapshot order.  Every entry carries the number of students of its
    class and the revenue given by the pricing rule of its mode, and of
    two classes the one with more students comes first. *)
Theorem topClasses_first_five_of_stable_sort (raw : list RawClass) :
  exists sorted : list TopClass,
    topClasses raw = firstn 5 sorted /\
    Permutation sorted (map topClassEntry raw) /\
    StronglySorted (fun a b => tc_studentCount b <= tc_studentCount a)
      sorted /\
    (forall n,
        List.filter (fun e => tc_studentCount e =? n) sorted
        = List.filter (fun e => tc_studentCount e =? n)
            (map topClassEntry raw)) /\
    (forall e, In e (topClasses raw) ->
       exists c, In c raw /\ e = topClassEntry c /\
         tc_studentCount e = Z.of_nat (length (default [] (students c))) /\
         tc_estimatedRevenueCents e
         = match pricingMode c with
           | FIXED_TOTAL => default 0 (fixedMonthlyPriceCents c)
           | PER_STUDENT =>
               default 0 (monthlyPriceCents c)
               * Z.of_nat (length (default [] (students c)))
           end) /\
    (forall a b : RawClass,
        (length (default [] (students a))
         < length (default [] (students b)))%nat ->
        topClasses [a; b] = [topClassEntry b; topClassEntry a]).
Proof.
  assert (Hcount : forall c, studentCount c
                             = Z.of_nat (length (default [] (students c)))).
  { intros c. unfold studentCount. now destruct (students c). }
  exists (sort byStudentCountDesc (map topClassEntry raw)).
  split; [reflexivity|].
  split; [apply sort_perm|].
  split.
  { eapply StronglySorted_weaken;
      [|apply (sort_sorted byStudentCountDesc)].
    - unfold cmpLe, byStudentCountDesc. intros; lia.
    - unfold byStudentCountDesc. intros; lia.
    - unfold byStudentCountDesc. intros; lia. }
  split.
  { intros n. apply sort_stable. unfold byStudentCountDesc.
    intros x y Hx Hy. apply Z.eqb_eq in Hx, Hy. lia. }
  split.
  { intros e He. unfold topClasses in He. apply In_firstn in He.
    apply sort_In in He. apply in_map_iff in He as (c & <- & Hc).
    exists c. split; [exact Hc|]. split; [reflexivity|].
    cbn [topClassEntry tc_studentCount tc_estimatedRevenueCents].
    unfold estimatedRevenueCents. rewrite Hcount. split; reflexivity. }
  intros a b Hab. unfold topClasses. simpl.
  unfold byStudentCountDesc at 1. simpl. rewrite !Hcount.
  destruct (Z.leb_spec
              (Z.of_nat (length (default [] (students b)))
               - Z.of_nat (length (default [] (students a)))) 0); [lia|].
  reflexivity.
Qed.

Definition sampleFixedClass : RawClass :=
  {| id := "c2"; name := "Physics"; pricingMode := FIXED_TOTAL;
     monthlyPriceCents := None; fixedMonthlyPriceCents := Some 20000;
     students := Some ["s1"; "s2"; "s3"; "s4"; "s5"; "s6"; "s7"; "s8";
                       "s9"; "s10"]%string;
     teacher := None |}.

Lemma topClasses_first_five_of_stable_sort_witness :
  map (fun e => (tc_id e, tc_studentCount e, tc_estimatedRevenueCents e))
    (topClasses [samplePerStudentClass; sampleFixedClass])
  = [("c2"%string, 10, 20000); ("c1"%string, 3, 15000)].
Proof.
  destruct (topClasses_first_five_of_stable_sort
              [samplePerStudentClass; sampleFixedClass])
    as (_ & _ & _ & _ & _ & _ & H).
  rewrite (H samplePerStudentClass sampleFixedClass) by (simpl; lia).
  reflexivity.
Defined.

End TopClasses.

(** ** Students by level *)

Section Histogram.
Local Open Scope Z_scope.
Import JS Dashboard.

(** The count a bucket reports; a bucket that is not there counts 0. *)
Definition bucket (h : gmap string Cell) (b : string) : Z :=
  match h !! b with
  | Some (Num n) => n
  | _ => 0
  end.

(** Every cell of the histogram holds a number. *)
Definition numeric (h : gmap string Cell) : Prop :=
  forall k v, h !! k = Some v -> exists n, v = Num n.

Lemma numeric_empty : numeric ∅.
Proof. intros k v. rewrite lookup_empty. discriminate. Qed.

Lemma isInherited_false (k : string) :
  isInherited k = false ->
  String.eqb k "__proto__" = false /\ isPrototypeFunction k = false.
Proof. unfold isInherited. apply orb_false_iff. Qed.

(** Incrementing a key that names no inherited member: [n || 0] is [n]
    whatever the number. *)
Lemma increment_own (k : string) (h : gmap string Cell) :
  isInherited k = false -> numeric h ->
  increment k h = <[k := Num (bucket h k + 1)]> h.
Proof.
  intros Hk Hh. apply isInherited_false in Hk as [Hp Hf].
  unfold increment, write, read, bucket. rewrite Hp.
  destruct (h !! k) as [v|] eqn:E.
  - destruct (Hh k v E) as [n ->].
    destruct (Z.eqb_spec n 0) as [->|_]; reflexivity.
  - rewrite Hf. reflexivity.
Qed.

Lemma bucket_increment (k b : string) (h : gmap string Cell) :
  isInherited k = false -> numeric h ->
  bucket (increment k h) b
  = (if String.eqb k b then bucket h b + 1 else bucket h b) /\
  numeric (increment k h).
Proof.
  intros Hk Hh. rewrite increment_own by assumption. split.
  - unfold bucket at 1. destruct (String.eqb_spec k b) as [->|N].
    + now rewrite lookup_insert_eq.
    + rewrite lookup_insert_ne by exact N. reflexivity.
  - intros x v. destruct (String.eqb_spec k x) as [->|N].
    + rewrite lookup_insert_eq. intros [= <-]. eauto.
    + rewrite lookup_insert_ne by exact N. apply Hh.
Qed.

(** The cells that are there hold 1 or more. *)
Definition positive (h : gmap string Cell) : Prop :=
  forall k, h !! k = None \/ 1 <= bucket h k.

Lemma positive_empty : positive ∅.
Proof. intros k. left. apply lookup_empty. Qed.

Lemma positive_increment (k : string) (h : gmap string Cell) :
  isInherited k = false -> numeric h -> positive h ->
  positive (increment k h).
Proof.
  intros Hk Hh Hp x. rewrite increment_own by assumption.
  destruct (String.eqb_spec k x) as [->|N].
  - right. unfold bucket at 1. rewrite lookup_insert_eq.
    destruct (Hp x) as [E|E]; [|lia].
    unfold bucket. rewrite E. lia.
  - destruct (Hp x) as [E|E].
    + left. now rewrite lookup_insert_ne.
    + right. unfold bucket. rewrite lookup_insert_ne by exact N. exact E.
Qed.

Lemma existsb_eqb_In (x : string) (l : list string) :
  existsb (String.eqb x) l = true <-> In x l.
Proof.
  rewrite existsb_exists. split.
  - intros (y & Hy & E). apply String.eqb_eq in E. now subst.
  - intros H. exists x. split; [exact H | apply String.eqb_refl].
Qed.

Lemma setAdd_spec (acc : list string) (x y : string) :
  In y (setAdd acc x) <-> In y acc \/ y = x.
Proof.
  unfold setAdd. destruct (existsb (String.eqb x) acc) eqn:E.
  - apply existsb_eqb_In in E. split; [tauto|]. intros [H| ->]; auto.
  - rewrite in_app_iff. simpl. intuition.
Qed.

Lemma setAdd_NoDup (acc : list string) (x : string) :
  NoDup acc -> NoDup (setAdd acc x).
Proof.
  intros Hnd. unfold setAdd. destruct (existsb (String.eqb x) acc) eqn:E.
  - exact Hnd.
  - apply NoDup_app. split; [exact Hnd|]. split.
    + intros y Hy Hy'. apply list_elem_of_In in Hy, Hy'.
      destruct Hy' as [<-|[]].
      apply existsb_eqb_In in Hy. congruence.
    + apply NoDup_singleton.
Qed.

Lemma fold_setAdd_spec (l acc : list string) (y : string) :
  In y (fold_left setAdd l acc) <-> In y acc \/ In y l.
Proof.
  revert acc. induction l as [|x xs IH]; intros acc; simpl; [tauto|].
  rewrite IH, setAdd_spec. intuition.
Qed.

Lemma fold_setAdd_NoDup (l acc : list string) :
  NoDup acc -> NoDup (fold_left setAdd l acc).
Proof.
  revert acc. induction l as [|x xs IH]; intros acc H; simpl; [exact H|].
  now apply IH, setAdd_NoDup.
Qed.

Lemma newSet_In (l : list string) (y : string) : In y (newSet l) <-> In y l.
Proof. unfold newSet. rewrite fold_setAdd_spec. simpl. tauto. Qed.

Lemma newSet_NoDup (l : list string) : NoDup (newSet l).
Proof. apply fold_setAdd_NoDup. constructor. Qed.

(** A name is in the set of a student exactly when one of the student's
    classes reaches a level with that name, and the name is not empty. *)
Lemma levelNames_In (s : Student) (b : string) :
  In b (levelNames s) <->
  exists c, In c (classes s) /\ levelNameOf c = Some b /\ b <> ""%string.
Proof.
  unfold levelNames. rewrite newSet_In, in_flat_map.
  split; intros (c & Hc & H); exists c; (split; [exact Hc|]).
  - unfold keepName in H. destruct (levelNameOf c) as [n|]; [|destruct H].
    destruct n; simpl in H; [destruct H|].
    destruct H as [<-|[]]. split; [reflexivity | discriminate].
  - destruct H as (-> & Hne). unfold keepName.
    destruct b; [congruence | now left].
Qed.

Lemma fold_increment (names : list string) (h : gmap string Cell)
  (b : string) :
  NoDup names -> numeric h ->
  (forall k, In k names -> isInherited k = false) ->
  let h' := fold_left (fun h' lvl => increment lvl h') names h in
  bucket h' b = bucket h b + (if existsb (String.eqb b) names then 1 else 0)
  /\ numeric h'.
Proof.
  cbn zeta. revert h.
  induction names as [|x xs IH]; intros h Hnd Hh Hk; simpl.
  - split; [lia | auto].
  - apply NoDup_cons in Hnd as (Hx & Hxs). rewrite list_elem_of_In in Hx.
    assert (Hkx : isInherited x = false) by (apply Hk; now left).
    destruct (bucket_increment x b h Hkx Hh) as [Hb Hn].
    destruct (IH (increment x h) Hxs Hn
                (fun k Hin => Hk k (or_intror Hin))) as (E & N').
    split; [|auto]. rewrite E, Hb, (String.eqb_sym b x).
    destruct (String.eqb_spec x b) as [->|Hne]; simpl; [|lia].
    destruct (existsb (String.eqb b) xs) eqn:Ex; [|lia].
    apply existsb_eqb_In in Ex. contradiction.
Qed.

Lemma fold_increment_positive (names : list string)
  (h : gmap string Cell) :
  numeric h -> positive h ->
  (forall k, In k names -> isInherited k = false) ->
  positive (fold_left (fun h' lvl => increment lvl h') names h).
Proof.
  revert h. induction names as [|x xs IH]; intros h Hh Hp Hk; simpl; [auto|].
  assert (Hkx : isInherited x = false) by (apply Hk; now left).
  apply IH.
  - now apply (bucket_increment x x).
  - now apply positive_increment.
  - intros k Hin. apply Hk. now right.
Qed.

(** Whether a student is counted in bucket [b]. *)
Definition countsIn (b : string) (s : Student) : bool :=
  match levelNames s with
  | [] => String.eqb b "Unassigned"
  | names => existsb (String.eqb b) names
  end.

(** One student, whose level names are no inherited member names, adds 1
    to the buckets it is counted in and nothing elsewhere. *)
Lemma countStudent_bucket (h : gmap string Cell) (s : Student) (b : string) :
  numeric h ->
  (forall k, In k (levelNames s) -> isInherited k = false) ->
  bucket (countStudent h s) b = bucket h b + (if countsIn b s then 1 else 0)
  /\ numeric (countStudent h s).
Proof.
  intros Hh Hk. unfold countStudent, countsIn.
  destruct (levelNames s) as [|n ns] eqn:E.
  - cbn [length Nat.eqb].
    destruct (bucket_increment "Unassigned" b h eq_refl Hh) as [Hb Hn].
    split; [|auto]. rewrite Hb, (String.eqb_sym b).
    destruct (String.eqb_spec "Unassigned" b) as [<-|N]; lia.
  - cbn [length Nat.eqb]. rewrite <- E in *.
    apply fold_increment; try assumption.
    unfold levelNames. apply newSet_NoDup.
Qed.

Lemma countStudent_positive (h : gmap string Cell) (s : Student) :
  numeric h -> positive h ->
  (forall k, In k (levelNames s) -> isInherited k = false) ->
  positive (countStudent h s).
Proof.
  intros Hh Hp Hk. unfold countStudent.
  destruct (levelNames s) as [|n ns] eqn:E.
  - cbn [length Nat.eqb]. now apply positive_increment.
  - cbn [length Nat.eqb]. now apply fold_increment_positive.
Qed.


Definition classUnder (lvl : string) : StudentClass :=
  {| subject :=
       Some {| track :=
                 Some {| level := Some {| level_name := Some lvl |} |} |} |}.

Definition studentOfTwoLevels : Student :=
  {| classes := [classUnder "Primaire"; classUnder "College";
                 classUnder "Primaire"] |}.



(** Nor does it hold for the names of inherited members: a student under
    a level named "__proto__" adds to no bucket at all, and under a level
    named "constructor" leaves a string where the count should be. *)
Lemma countStudent_inherited_names :
  countStudent ∅ {| classes := [classUnder "__proto__"] |} = ∅ /\
  countStudent ∅ {| classes := [classUnder "constructor"] |}
  !! "constructor"%string
  = Some (Str "function Object() { [native code] }1").
Proof. split; vm_compute; reflexivity. Qed.

End Histogram.

(** ** Month keys *)

Section MonthKeys.
Local Open Scope Z_scope.
Import JS JSDate Dashboard.

(** The label of month [m] (0 to 11) of year [y]: the year in decimal, a
    dash, and the month number from 01 to 12. *)
Definition monthLabel (y m : Z) : string :=
  (pretty y ++ "-" ++ padStart 2 "0" (pretty (m + 1)))%string.

Lemma monthKey_valid (t : Z) :
  monthKey (Some t) = monthLabel (YearFromTime t) (MonthFromTime t).
Proof. reflexivity. Qed.

Lemma append_inj_length (a a' b b' : string) :
  String.length a = String.length a' ->
  (a ++ b = a' ++ b')%string -> a = a' /\ b = b'.
Proof.
  revert a'. induction a as [|c a IH]; intros [|c' a']; simpl;
    try discriminate.
  - auto.
  - intros Hl H. injection Hl as Hl. injection H as -> H.
    destruct (IH a' Hl H) as [-> ->]. auto.
Qed.

Lemma length_append (a b : string) :
  String.length (a ++ b) = (String.length a + String.length b)%nat.
Proof. induction a as [|c a IH]; simpl; [reflexivity | now rewrite IH]. Qed.

Lemma monthNumber_length (m : Z) :
  0 <= m <= 11 -> String.length (padStart 2 "0" (pretty (m + 1))) = 2%nat.
Proof.
  intros R. month_cases m H.
  repeat (destruct H as [->|H]); try rewrite H; reflexivity.
Qed.

Lemma monthNumber_inj (m m' : Z) :
  0 <= m <= 11 -> 0 <= m' <= 11 ->
  padStart 2 "0" (pretty (m + 1)) = padStart 2 "0" (pretty (m' + 1)) ->
  m = m'.
Proof.
  intros R R' E. month_cases m H. month_cases m' H'.
  repeat (destruct H as [->|H]); try rewrite H in *;
    repeat (destruct H' as [->|H']); try rewrite H' in *;
    first [reflexivity | vm_compute in E; discriminate E].
Qed.

(** Distinct months have distinct labels. *)
Lemma monthLabel_inj (y m y' m' : Z) :
  0 <= m <= 11 -> 0 <= m' <= 11 ->
  monthLabel y m = monthLabel y' m' -> y = y' /\ m = m'.
Proof.
  intros R R' E. unfold monthLabel in E.
  assert (L : String.length (pretty y) = String.length (pretty y')).
  { apply (f_equal String.length) in E.
    rewrite !length_append, !monthNumber_length in E by assumption.
    simpl in E. lia. }
  apply append_inj_length in E as [Ey E]; [|exact L].
  apply (append_inj_length "-" "-") in E as [_ E]; [|reflexivity].
  split; [now apply (inj pretty) | now apply monthNumber_inj].
Qed.

End MonthKeys.

(** ** Monthly revenue *)

Section MonthlyRevenue.
Local Open Scope Z_scope.
Import JS JSDate Dashboard.

(** The item is billed in month [m] (0 to 11) of year [y]. *)
Definition inMonth (y m : Z) (item : InvoiceItem) : bool :=
  (YearFromTime (billedMonth item) =? y)
  && (MonthFromTime (billedMonth item) =? m).

Definition hasKey (k : string) (item : InvoiceItem) : bool :=
  String.eqb (monthKey (Some (billedMonth item))) k.

Lemma hasKey_inMonth (y m : Z) (item : InvoiceItem) :
  0 <= m <= 11 -> hasKey (monthLabel y m) item = inMonth y m item.
Proof.
  intros R. unfold hasKey, inMonth. rewrite monthKey_valid.
  pose proof (MonthFromTime_range (billedMonth item)) as R'.
  destruct (String.eqb_spec
              (monthLabel (YearFromTime (billedMonth item))
                 (MonthFromTime (billedMonth item)))
              (monthLabel y m)) as [E|N].
  - apply monthLabel_inj in E as [-> ->]; [|assumption..].
    now rewrite !Z.eqb_refl.
  - destruct (Z.eqb_spec (YearFromTime (billedMonth item)) y) as [Ey|];
      [|reflexivity].
    destruct (Z.eqb_spec (MonthFromTime (billedMonth item)) m) as [Em|];
      [|reflexivity].
    rewrite Ey, Em in N. congruence.
Qed.

Definition invoicedAt (mm : gmap string MonthTotals) (k : string) : Z :=
  default 0 (mt_invoicedCents <$> mm !! k).

Definition paidAt (mm : gmap string MonthTotals) (k : string) : Z :=
  default 0 (mt_paidCents <$> mm !! k).

Lemma addItem_totals (mm : gmap string MonthTotals) (item : InvoiceItem)
  (k : string) :
  invoicedAt (addItem mm item) k
  = invoicedAt mm k + (if hasKey k item then lineTotalCents item else 0) /\
  paidAt (addItem mm item) k
  = paidAt mm k + (if hasKey k item then default 0 (paidCents item) else 0).
Proof.
  unfold invoicedAt, paidAt, addItem, hasKey.
  generalize (monthKey (Some (billedMonth item))). intros k'.
  destruct (String.eqb_spec k' k) as [->|N].
  - rewrite lookup_insert_eq.
    destruct (mm !! k) as [v|]; simpl; split; lia.
  - rewrite lookup_insert_ne by exact N. split; lia.
Qed.

Lemma monthMap_totals (its : list InvoiceItem) (mm : gmap string MonthTotals)
  (k : string) :
  invoicedAt (fold_left addItem its mm) k
  = invoicedAt mm k + sumZ (map lineTotalCents (List.filter (hasKey k) its))
  /\
  paidAt (fold_left addItem its mm) k
  = paidAt mm k
    + sumZ (map (fun i => default 0 (paidCents i)) (List.filter (hasKey k) its)).
Proof.
  revert mm. induction its as [|it its IH]; intros mm; simpl.
  - split; lia.
  - destruct (IH (addItem mm it)) as [I P].
    destruct (addItem_totals mm it k) as [I' P'].
    rewrite I, P, I', P'.
    destruct (hasKey k it); simpl; split; lia.
Qed.

Lemma orZero_id (v : option Z) : Dashboard.orZero v = default 0 v.
Proof.
  destruct v as [n|]; simpl; [|reflexivity].
  destruct (Z.eqb_spec n 0); congruence.
Qed.

(** The date built for the bucket [i] months back is valid and lies in
    month [MonthFromTime now - i] of the year of [now], months below 0
    falling in the year before. *)
Lemma bucket_date (now i : Z) :
  0 <= now <= maxTime -> 0 <= i <= 5 ->
  exists t,
    UTC (YearFromTime now) (MonthFromTime now - i) 1 = Some t /\
    YearFromTime t = YearFromTime now + (MonthFromTime now - i) / 12 /\
    MonthFromTime t = (MonthFromTime now - i) mod 12.
Proof.
  intros Hn Hi.
  pose proof (YearFromTime_epoch now (proj1 Hn)) as HY.
  pose proof (fields_of_MakeDay (YearFromTime now) (MonthFromTime now - i))
    as (Hy & Hm & _). cbn zeta in Hy, Hm.
  exists (MakeDate (MakeDay (YearFromTime now) (MonthFromTime now - i) 1) 0).
  split; [|split; assumption].
  unfold UTC.
  replace ((0 <=? YearFromTime now) && (YearFromTime now <=? 99)) with false
    by (symmetry; apply andb_false_iff; right; apply Z.leb_gt; lia).
  change (MakeTime 0 0 0 0) with 0.
  unfold TimeClip.
  pose proof (first_of_earlier_month now i ltac:(lia)) as Hup.
  assert (Hlow : -365 <= MakeDay (YearFromTime now) (MonthFromTime now - i) 1).
  { pose proof (YearFromTime_spec
                  (MakeDate (MakeDay (YearFromTime now)
                               (MonthFromTime now - i) 1) 0)) as S.
    rewrite Hy in S.
    rewrite Day_MakeDate in S by (unfold msPerDay; lia).
    pose proof (MonthFromTime_range now).
    assert (-1 <= (MonthFromTime now - i) / 12)
      by (Z.div_mod_to_equations; lia).
    pose proof (DayFromYear_mono 1969
                  (YearFromTime now + (MonthFromTime now - i) / 12)
                  ltac:(lia)) as Mo.
    change (DayFromYear 1969) with (-365) in Mo. lia. }
  assert (Hday : Day now * msPerDay <= now)
    by (unfold Day, msPerDay; Z.div_mod_to_equations; lia).
  replace (Z.abs _ <=? maxTime) with true; [reflexivity|].
  symmetry. apply Z.leb_le. unfold MakeDate, maxTime, msPerDay in *. lia.
Qed.

(** The bucket [i] months back: its label and its two sums. *)
Lemma monthBucket_spec (now : Z) (invoiceItems : list InvoiceItem) (i : Z) :
  0 <= now <= maxTime -> 0 <= i <= 5 ->
  let y := YearFromTime now + (MonthFromTime now - i) / 12 in
  let m := (MonthFromTime now - i) mod 12 in
  let b := monthBucket now (monthMapOf invoiceItems) i in
  0 <= m <= 11 /\
  mb_month b = monthLabel y m /\
  mb_invoicedCents b
  = sumZ (map lineTotalCents (List.filter (inMonth y m) invoiceItems)) /\
  mb_paidCents b
  = sumZ (map (fun it => default 0 (paidCents it))
            (List.filter (inMonth y m) invoiceItems)).
Proof.
  intros Hn Hi y m b.
  assert (Rm : 0 <= m <= 11) by (unfold m; Z.div_mod_to_equations; lia).
  destruct (bucket_date now i Hn Hi) as (t & Ht & Hy & Hm).
  assert (Hk : monthKey (UTC (YearFromTime now) (MonthFromTime now - i) 1)
               = monthLabel y m).
  { rewrite Ht, monthKey_valid, Hy, Hm. reflexivity. }
  unfold b, monthBucket.
  cbn [mb_month mb_invoicedCents mb_paidCents]. rewrite Hk.
  destruct (monthMap_totals invoiceItems ∅ (monthLabel y m)) as [I P].
  unfold invoicedAt, paidAt in I, P. rewrite lookup_empty in I, P.
  simpl in I, P. fold (monthMapOf invoiceItems) in I, P.
  rewrite !orZero_id, I, P.
  rewrite (List.filter_ext (hasKey (monthLabel y m)) (inMonth y m))
    by (intros it; now apply hasKey_inMonth).
  auto.
Qed.

(** C4. With a reference instant from the epoch on, the monthly revenue
    trend has exactly six buckets, oldest first: the bucket at position
    5 - i is labelled with the month i months before the reference month
    (the last one is the reference month itself) and holds the sums of the
    line totals and paid amounts of the items billed in that month, which
    are 0 and 0 when no item is billed in it; an empty item list gives six
    all-zero buckets. *)
Theorem monthlyRevenue_six_buckets (now : Z) (invoiceItems : list InvoiceItem) :
  0 <= now <= maxTime ->
  length (monthlyRevenue now invoiceItems) = 6%nat /\
  (forall i, 0 <= i <= 5 ->
     exists b,
       nth_error (monthlyRevenue now invoiceItems) (Z.to_nat (5 - i))
       = Some b /\
       let y := YearFromTime now + (MonthFromTime now - i) / 12 in
       let m := (MonthFromTime now - i) mod 12 in
       12 * y + m = 12 * YearFromTime now + MonthFromTime now - i /\
       0 <= m <= 11 /\
       mb_month b = monthLabel y m /\
       mb_invoicedCents b
       = sumZ (map lineTotalCents (List.filter (inMonth y m) invoiceItems)) /\
       mb_paidCents b
       = sumZ (map (fun it => default 0 (paidCents it))
                 (List.filter (inMonth y m) invoiceItems)) /\
       ((forall it, In it invoiceItems -> inMonth y m it = false) ->
        mb_invoicedCents b = 0 /\ mb_paidCents b = 0)) /\
  (exists last,
     nth_error (monthlyRevenue now invoiceItems) 5 = Some last /\
     mb_month last = monthKey (Some now)) /\
  (invoiceItems = [] ->
   Forall (fun b => mb_invoicedCents b = 0 /\ mb_paidCents b = 0)
     (monthlyRevenue now invoiceItems)).
Proof.
  intros Hn.
  assert (Main : forall i, 0 <= i <= 5 ->
     let y := YearFromTime now + (MonthFromTime now - i) / 12 in
     let m := (MonthFromTime now - i) mod 12 in
     let b := monthBucket now (monthMapOf invoiceItems) i in
     0 <= m <= 11 /\
     mb_month b = monthLabel y m /\
     mb_invoicedCents b
     = sumZ (map lineTotalCents (List.filter (inMonth y m) invoiceItems)) /\
     mb_paidCents b
     = sumZ (map (fun it => default 0 (paidCents it))
               (List.filter (inMonth y m) invoiceItems))).
  { intros i Hi. now apply monthBucket_spec. }
  split; [reflexivity|]. split; [|split].
  - intros i Hi.
    exists (monthBucket now (monthMapOf invoiceItems) i).
    destruct (Main i Hi) as (Rm & Hl & HI & HP).
    split.
    { unfold monthlyRevenue.
      assert (Hc : i = 0 \/ i = 1 \/ i = 2 \/ i = 3 \/ i = 4 \/ i = 5) by lia.
      destruct Hc as [->|[->|[->|[->|[->| ->]]]]]; reflexivity. }
    cbn zeta. split; [Z.div_mod_to_equations; lia|].
    split; [exact Rm|]. split; [exact Hl|].
    split; [exact HI|]. split; [exact HP|].
    intros Hnone. rewrite HI, HP.
    assert (E : List.filter
                  (inMonth (YearFromTime now + (MonthFromTime now - i) / 12)
                     ((MonthFromTime now - i) mod 12)) invoiceItems = []).
    { clear -Hnone. induction invoiceItems as [|it its IH]; [reflexivity|].
      simpl. rewrite (Hnone it) by now left.
      apply IH. intros it' H'. apply Hnone. now right. }
    rewrite E. split; reflexivity.
  - exists (monthBucket now (monthMapOf invoiceItems) 0).
    split; [reflexivity|].
    destruct (Main 0 ltac:(lia)) as (_ & Hl & _).
    rewrite Hl, monthKey_valid.
    pose proof (MonthFromTime_range now).
    f_equal; Z.div_mod_to_equations; lia.
  - intros ->. unfold monthlyRevenue.
    repeat (apply Forall_cons; split;
            [match goal with
             | |- context [monthBucket now _ ?i] =>
                 destruct (Main i ltac:(lia)) as (_ & _ & HI & HP);
                 rewrite HI, HP; split; reflexivity
             end|]).
    apply Forall_nil. exact I.
Qed.

Definition marchItems : list InvoiceItem :=
  [ {| billedMonth := 1740787200000; lineTotalCents := 1000;
       paidCents := Some 400 |};
    {| billedMonth := 1740787200000; lineTotalCents := 500;
       paidCents := Some 500 |} ].

Lemma monthlyRevenue_six_buckets_witness :
  length (monthlyRevenue 1751328000000 marchItems) = 6%nat /\
  exists b,
    nth_error (monthlyRevenue 1751328000000 marchItems) 1 = Some b /\
    mb_month b = "2025-03"%string /\
    mb_invoicedCents b = 1500 /\ mb_paidCents b = 900.
Proof.
  assert (Hn : 0 <= 1751328000000 <= maxTime) by (unfold maxTime; lia).
  destruct (monthlyRevenue_six_buckets 1751328000000 marchItems Hn)
    as (Hlen & Hb & _).
  split; [exact Hlen|].
  destruct (Hb 4 ltac:(lia)) as (b & Hnth & _ & _ & Hl & HI & HP & _).
  exists b. split; [exact Hnth|].
  split; [rewrite Hl; vm_compute; reflexivity|].
  split; [rewrite HI | rewrite HP]; vm_compute; reflexivity.
Defined.

End MonthlyRevenue.

(** ** Schedule expansion *)

Section Expansion.
Local Open Scope Z_scope.
Import JS JSDate Dashboard.

(** Time values that a [Date] can hold. *)
Definition validTime (t : Z) : Prop := Z.abs t <= maxTime.

Lemma TimeClip_valid (t : Z) : validTime t -> TimeClip t = Some t.
Proof.
  unfold validTime, TimeClip. intros H.
  apply Z.leb_le in H. now rewrite H.
Qed.

(** The reference instant is at or after the epoch and far enough from the
    end of the range of dates for a week and a 32-bit number of minutes to
    fit after it. *)
Definition referenceOk (now : Z) : Prop :=
  0 <= now /\ now + 7 * msPerDay + 2 ^ 31 * msPerMinute <= maxTime.

(** The minute fields of a slot are 32-bit integers, as their columns. *)
Definition int32 (z : Z) : Prop := - 2 ^ 31 <= z < 2 ^ 31.

Definition slotOk (ct : ClassTime) : Prop :=
  int32 (startMinutes ct) /\ int32 (endMinutes ct).

(** Midnight UTC of the day [offset] days after the reference date, and
    the start and end instants of a slot on that day. *)
Definition dayInstant (now offset : Z) : Z := MakeDate (Day now + offset) 0.

Definition startInstant (now : Z) (p : ClassTime * Z) : Z :=
  MakeDate (Day now + snd p) (startMinutes (fst p) * msPerMinute).

Definition endInstant (now : Z) (p : ClassTime * Z) : Z :=
  MakeDate (Day now + snd p) (endMinutes (fst p) * msPerMinute).

(** The session of slot [fst p] on the day [snd p] days after the
    reference date. *)
Definition sessionOf (now : Z) (p : ClassTime * Z) : Session :=
  {| s_id := ct_id (fst p) ++ "-" ++ isoDate (dayInstant now (snd p));
     s_classId := ct_classId (fst p);
     s_className := classNameOf (fst p);
     s_teacher := sessionTeacherOf (fst p);
     s_start := isoString (startInstant now p);
     s_end := isoString (endInstant now p);
     s_dayOfWeek := dayOfWeek (fst p) |}.

Fixpoint zrange (from : Z) (n : nat) : list Z :=
  match n with
  | O => []
  | S k => from :: zrange (from + 1) k
  end.

Lemma zrange_In (from : Z) (n : nat) (x : Z) :
  In x (zrange from n) <-> from <= x < from + Z.of_nat n.
Proof.
  revert from. induction n as [|n IH]; intros from; simpl zrange.
  - simpl. lia.
  - simpl In. rewrite IH. lia.
Qed.

(** The days of the horizon on which a slot takes place, and all
    occurrences in the order the loops visit them. *)
Definition onDay (now : Z) (ct : ClassTime) (offset : Z) : bool :=
  WeekDay (dayInstant now offset) =? dayOfWeek ct.

Definition occurrencesOf (now : Z) (ct : ClassTime) : list (ClassTime * Z) :=
  flat_map (fun o => if onDay now ct o then [(ct, o)] else [])
    (zrange 0 (Z.to_nat horizon)).

Definition occurrences (now : Z) (classTimes : list ClassTime)
  : list (ClassTime * Z) :=
  flat_map (occurrencesOf now) classTimes.

Lemma WeekDay_dayInstant (now offset : Z) :
  WeekDay (dayInstant now offset) = (Day now + offset + 4) mod 7.
Proof.
  unfold WeekDay, dayInstant.
  rewrite Day_MakeDate by (unfold msPerDay; lia). reflexivity.
Qed.

Lemma WeekDay_MakeDate (d : Z) : WeekDay (MakeDate d 0) = (d + 4) mod 7.
Proof.
  unfold WeekDay. rewrite Day_MakeDate by (unfold msPerDay; lia). reflexivity.
Qed.

Lemma HourFromTime_midnight (d : Z) : HourFromTime (MakeDate d 0) = 0.
Proof.
  unfold HourFromTime, MakeDate, msPerDay, msPerHour.
  Z.div_mod_to_equations. lia.
Qed.

(** Day overflow: the date built from the fields of [now] with [offset]
    added to the day of the month is midnight, [offset] days on. *)
Lemma UTC_day_offset (now offset : Z) :
  0 <= now ->
  UTC (YearFromTime now) (MonthFromTime now) (DateFromTime now + offset)
  = TimeClip (dayInstant now offset).
Proof.
  intros Hn. pose proof (YearFromTime_epoch now Hn) as HY.
  unfold UTC.
  replace ((0 <=? YearFromTime now) && (YearFromTime now <=? 99)) with false
    by (symmetry; apply andb_false_iff; right; apply Z.leb_gt; lia).
  rewrite MakeDay_of_fields. reflexivity.
Qed.

Lemma Day_bounds (t : Z) : Day t * msPerDay <= t < Day t * msPerDay + msPerDay.
Proof. unfold Day, msPerDay. Z.div_mod_to_equations. lia. Qed.

Lemma instants_valid (now offset m : Z) :
  referenceOk now -> 0 <= offset < 7 -> int32 m ->
  validTime (dayInstant now offset) /\
  validTime (MakeDate (Day now + offset) (m * msPerMinute)).
Proof.
  intros [H0 H1] Ho Hm. pose proof (Day_bounds now) as B.
  unfold validTime, dayInstant, MakeDate, int32 in *.
  unfold maxTime, msPerDay, msPerMinute in *.
  change (2 ^ 31) with 2147483648 in *. split; lia.
Qed.

Lemma setUTCMinutes_midnight (d m : Z) :
  setUTCMinutes (Some (MakeDate d 0)) m 0 0
  = TimeClip (MakeDate d (m * msPerMinute)).
Proof.
  unfold setUTCMinutes. rewrite HourFromTime_midnight.
  rewrite Day_MakeDate by (unfold msPerDay; lia).
  unfold MakeTime. do 2 f_equal. lia.
Qed.

(** No character of a decimal rendering is the letter T. *)
Fixpoint avoids (c : ascii) (s : string) : Prop :=
  match s with
  | EmptyString => True
  | String x r => x <> c /\ avoids c r
  end.

Lemma avoids_append (c : ascii) (a b : string) :
  avoids c a -> avoids c b -> avoids c (a ++ b).
Proof. induction a as [|x a IH]; simpl; [auto | intuition]. Qed.

Lemma splitHead_append (c : ascii) (a r : string) :
  avoids c a -> splitHead c (a ++ String c r) = a.
Proof.
  induction a as [|x a IH]; simpl.
  - intros _. now rewrite Ascii.eqb_refl.
  - intros [Hx Ha]. apply Ascii.eqb_neq in Hx. rewrite Hx.
    now rewrite IH.
Qed.

Lemma digit_not_T (d : Z) : 0 <= d <= 9 -> digit d <> "T"%char.
Proof.
  intros H.
  assert (C : d = 0 \/ d = 1 \/ d = 2 \/ d = 3 \/ d = 4 \/ d = 5 \/ d = 6 \/
              d = 7 \/ d = 8 \/ d = 9) by lia.
  repeat (destruct C as [->|C]); try rewrite C; discriminate.
Qed.

Lemma digits_avoid_T (w : nat) (n : Z) : avoids "T" (digits w n).
Proof.
  revert n. induction w as [|w IH]; intros n; simpl; [exact I|].
  split; [|apply IH].
  apply digit_not_T.
  pose proof (Z.mod_pos_bound (n / 10 ^ Z.of_nat w) 10 ltac:(lia)). lia.
Qed.

Lemma isoDate_avoids_T (t : Z) : avoids "T" (isoDate t).
Proof.
  unfold isoDate, isoYear.
  repeat apply avoids_append; try apply digits_avoid_T;
    try (simpl; split; [discriminate | exact I]).
  destruct ((0 <=? YearFromTime t) && (YearFromTime t <=? 9999)).
  - apply digits_avoid_T.
  - destruct (YearFromTime t <? 0); (split; [discriminate|]);
      apply digits_avoid_T.
Qed.

Lemma splitHead_isoString (t : Z) : splitHead "T" (isoString t) = isoDate t.
Proof.
  unfold isoString. apply splitHead_append, isoDate_avoids_T.
Qed.

(** One round of the inner loop pushes the session of the slot when the
    day falls on the slot's weekday, and nothing otherwise; it does not
    throw. *)
Lemma sessionsAt_spec (now : Z) (ct : ClassTime) (offset : Z) :
  referenceOk now -> slotOk ct -> 0 <= offset < 7 ->
  sessionsAt now ct offset
  = Normal (map (sessionOf now)
              (if onDay now ct offset then [(ct, offset)] else [])).
Proof.
  intros Hn [Hs He] Ho.
  destruct (instants_valid now offset _ Hn Ho Hs) as [Vd Vs].
  destruct (instants_valid now offset _ Hn Ho He) as [_ Ve].
  unfold sessionsAt. cbn zeta.
  rewrite UTC_day_offset by apply Hn.
  rewrite (TimeClip_valid _ Vd).
  unfold utcDayIs, onDay.
  destruct (WeekDay (dayInstant now offset) =? dayOfWeek ct); [|reflexivity].
  unfold dayInstant at 2 3. rewrite !setUTCMinutes_midnight.
  rewrite (TimeClip_valid _ Vs), (TimeClip_valid _ Ve).
  unfold toISOString. rewrite splitHead_isoString. reflexivity.
Qed.

Lemma forOffsets_spec (now : Z) (ct : ClassTime) (rounds : nat) (offset : Z)
  (acc : list Session) :
  referenceOk now -> slotOk ct ->
  0 <= offset -> offset + Z.of_nat rounds <= 7 ->
  forOffsets now ct rounds offset acc
  = Normal (acc ++ map (sessionOf now)
                     (flat_map
                        (fun o => if onDay now ct o then [(ct, o)] else [])
                        (zrange offset rounds))).
Proof.
  intros Hn Hc. revert offset acc.
  induction rounds as [|k IH]; intros offset acc H0 H7;
    cbn [forOffsets zrange flat_map map].
  - now rewrite app_nil_r.
  - rewrite sessionsAt_spec by (try assumption; lia).
    rewrite IH by lia. rewrite map_app, app_assoc. reflexivity.
Qed.

(** The two loops push the sessions of all occurrences, in order, and do
    not throw. *)
Lemma forClassTimes_spec (now : Z) (classTimes : list ClassTime)
  (acc : list Session) :
  referenceOk now -> Forall slotOk classTimes ->
  forClassTimes now classTimes acc
  = Normal (acc ++ map (sessionOf now) (occurrences now classTimes)).
Proof.
  intros Hn Hc. revert acc.
  induction Hc as [|ct rest Hct Hrest IH]; intros acc;
    cbn [forClassTimes].
  - now rewrite app_nil_r.
  - rewrite forOffsets_spec by (try assumption; unfold horizon; lia).
    rewrite IH. unfold occurrences. cbn [flat_map].
    unfold occurrencesOf at 2.
    rewrite map_app, app_assoc. reflexivity.
Qed.

Lemma occurrences_In (now : Z) (classTimes : list ClassTime)
  (p : ClassTime * Z) :
  In p (occurrences now classTimes) <->
  In (fst p) classTimes /\ 0 <= snd p < 7 /\
  WeekDay (dayInstant now (snd p)) = dayOfWeek (fst p).
Proof.
  unfold occurrences, occurrencesOf. rewrite in_flat_map. split.
  - intros (ct & Hct & H). rewrite in_flat_map in H.
    destruct H as (o & Ho & H). apply zrange_In in Ho.
    unfold onDay in H.
    destruct (Z.eqb_spec (WeekDay (dayInstant now o)) (dayOfWeek ct));
      [|destruct H].
    destruct H as [<-|[]]. simpl. unfold horizon in Ho. repeat split;
      try assumption; lia.
  - intros (Hct & Ho & Hw). exists (fst p). split; [exact Hct|].
    rewrite in_flat_map. exists (snd p). split.
    + apply zrange_In. unfold horizon. lia.
    + unfold onDay. apply Z.eqb_eq in Hw. rewrite Hw.
      left. now destruct p.
Qed.

Lemma upcomingSessions_spec (now : Z) (classTimes : list ClassTime) :
  referenceOk now -> Forall slotOk classTimes ->
  upcomingSessions now classTimes
  = Normal (sort byStart (map (sessionOf now) (occurrences now classTimes))).
Proof.
  intros Hn Hc. unfold upcomingSessions.
  now rewrite forClassTimes_spec.
Qed.

(** C9. Schedule expansion returns exactly the sessions of the slots and
    offsets d in [0, 7) for which the UTC weekday of the reference date
    plus d days is the slot's dayOfWeek.  Such a session carries the
    slot's dayOfWeek, starts and ends at that date plus the slot's start
    and end minutes, and is identified by the slot id, a dash and the ISO
    date. *)
Theorem upcomingSessions_members (now : Z) (classTimes : list ClassTime) :
  referenceOk now -> Forall slotOk classTimes ->
  exists l,
    upcomingSessions now classTimes = Normal l /\
    forall s,
      In s l <->
      exists ct d,
        In ct classTimes /\ 0 <= d < horizon /\
        WeekDay (MakeDate (Day now + d) 0) = dayOfWeek ct /\
        s_dayOfWeek s = dayOfWeek ct /\
        s_start s
        = isoString (MakeDate (Day now + d) (startMinutes ct * msPerMinute))
        /\
        s_end s
        = isoString (MakeDate (Day now + d) (endMinutes ct * msPerMinute))
        /\
        s_id s
        = (ct_id ct ++ "-" ++ isoDate (MakeDate (Day now + d) 0))%string /\
        s_classId s = ct_classId ct /\
        s_className s = classNameOf ct /\
        s_teacher s = sessionTeacherOf ct.
Proof.
  intros Hn Hc. eexists. split; [now apply upcomingSessions_spec|].
  intros s. rewrite sort_In, in_map_iff. split.
  - intros ([ct d] & <- & Hp). apply occurrences_In in Hp.
    simpl in Hp. destruct Hp as (Hct & Hd & Hw).
    exists ct, d. unfold horizon. repeat split; (assumption || lia).
  - intros (ct & d & Hct & Hd & Hw & E1 & E2 & E3 & E4 & E5 & E6 & E7).
    exists (ct, d). split.
    + destruct s. unfold sessionOf, startInstant, endInstant, dayInstant.
      cbn [fst snd s_dayOfWeek s_start s_end s_id s_classId s_className
             s_teacher] in *.
      subst. reflexivity.
    + apply occurrences_In. cbn [fst snd]. unfold horizon in Hd. auto.
Qed.

Definition mondaySlot : ClassTime :=
  {| ct_id := "t1"; ct_classId := "c1"; dayOfWeek := 1;
     startMinutes := 600; endMinutes := 690; ct_class := None |}.

(** Monday 2 November 2026, 07:28:38 UTC. *)
Definition aMonday : Z := 1793604518394.

Lemma aMonday_ok : referenceOk aMonday.
Proof. unfold referenceOk, aMonday, maxTime, msPerDay, msPerMinute. lia. Qed.

Lemma mondaySlot_ok : slotOk mondaySlot.
Proof. unfold slotOk, int32. simpl. lia. Qed.

Lemma upcomingSessions_members_witness :
  exists l,
    upcomingSessions aMonday [mondaySlot] = Normal l /\
    forall s, In s l -> s_dayOfWeek s = 1.
Proof.
  destruct (upcomingSessions_members aMonday [mondaySlot] aMonday_ok
              (Forall_cons_2 _ _ _ mondaySlot_ok (Forall_nil_2 _)))
    as (l & Hl & Hin).
  exists l. split; [exact Hl|].
  intros s Hs. apply Hin in Hs as (ct & d & [<-|[]] & _ & _ & E & _).
  exact E.
Defined.

Lemma length_flat_map_if {B C : Type} (c : B -> bool) (f : B -> C)
  (l : list B) :
  length (flat_map (fun x => if c x then [f x] else []) l)
  = length (List.filter c l).
Proof.
  induction l as [|x xs IH]; simpl; [reflexivity|].
  destruct (c x); simpl; now rewrite IH.
Qed.

(** Any seven consecutive days hold each weekday once. *)
Lemma each_weekday_once (D dow : Z) :
  length (List.filter (fun o => (D + o + 4) mod 7 =? dow) [0; 1; 2; 3; 4; 5; 6])
  = if (0 <=? dow) && (dow <=? 6) then 1%nat else 0%nat.
Proof.
  assert (Hr : 0 <= (D + 4) mod 7 < 7) by (apply Z.mod_pos_bound; lia).
  assert (E : forall o, (D + o + 4) mod 7 = ((D + 4) mod 7 + o) mod 7).
  { intros o. rewrite Zplus_mod_idemp_l. f_equal. lia. }
  cbn [List.filter]. rewrite !E. clear E.
  generalize dependent ((D + 4) mod 7). intros r Hr.
  assert (C : r = 0 \/ r = 1 \/ r = 2 \/ r = 3 \/ r = 4 \/ r = 5 \/ r = 6)
    by lia.
  destruct (Z.leb_spec 0 dow) as [L|L]; cbn [andb].
  - destruct (Z.leb_spec dow 6) as [U|U].
    + assert (C' : dow = 0 \/ dow = 1 \/ dow = 2 \/ dow = 3 \/ dow = 4 \/
                   dow = 5 \/ dow = 6) by lia.
      repeat (destruct C as [->|C]); try rewrite C;
        repeat (destruct C' as [->|C']); try rewrite C'; reflexivity.
    + repeat (destruct C as [->|C]); try rewrite C;
        repeat match goal with
               | |- context [?a mod 7 =? dow] =>
                   let v := eval vm_compute in (a mod 7) in
                   change (a mod 7) with v;
                   destruct (Z.eqb_spec v dow); [lia|]
               end; reflexivity.
  - repeat (destruct C as [->|C]); try rewrite C;
      repeat match goal with
             | |- context [?a mod 7 =? dow] =>
                 let v := eval vm_compute in (a mod 7) in
                 change (a mod 7) with v;
                 destruct (Z.eqb_spec v dow); [lia|]
             end; reflexivity.
Qed.

Definition validDay (ct : ClassTime) : bool :=
  (0 <=? dayOfWeek ct) && (dayOfWeek ct <=? 6).

Lemma occurrencesOf_length (now : Z) (ct : ClassTime) :
  length (occurrencesOf now ct) = if validDay ct then 1%nat else 0%nat.
Proof.
  unfold occurrencesOf. rewrite (length_flat_map_if _ (pair ct)).
  change (zrange 0 (Z.to_nat horizon)) with [0; 1; 2; 3; 4; 5; 6].
  rewrite (List.filter_ext (onDay now ct)
             (fun o => (Day now + o + 4) mod 7 =? dayOfWeek ct)).
  - apply each_weekday_once.
  - intros o. unfold onDay. now rewrite WeekDay_dayInstant.
Qed.

Lemma occurrences_length (now : Z) (classTimes : list ClassTime) :
  length (occurrences now classTimes)
  = length (List.filter validDay classTimes).
Proof.
  unfold occurrences.
  induction classTimes as [|ct rest IH]; [reflexivity|].
  cbn [flat_map List.filter]. rewrite length_app, occurrencesOf_length, IH.
  destruct (validDay ct); reflexivity.
Qed.

(** C10. With the horizon of 7 days every slot whose dayOfWeek lies in
    0..6 takes place on exactly one day of the horizon, and the other
    slots on none; before the cut to 15 the number of sessions is the
    number of slots with a dayOfWeek in 0..6. *)
Theorem upcomingSessions_one_per_slot (now : Z) (classTimes : list ClassTime) :
  referenceOk now -> Forall slotOk classTimes ->
  exists l,
    upcomingSessions now classTimes = Normal l /\
    length l = length (List.filter validDay classTimes) /\
    forall ct,
      (0 <= dayOfWeek ct <= 6 ->
       exists d, 0 <= d < horizon /\
                 WeekDay (MakeDate (Day now + d) 0) = dayOfWeek ct /\
                 forall d', 0 <= d' < horizon ->
                            WeekDay (MakeDate (Day now + d') 0) = dayOfWeek ct ->
                            d' = d) /\
      (~ 0 <= dayOfWeek ct <= 6 ->
       forall d, WeekDay (MakeDate (Day now + d) 0) <> dayOfWeek ct).
Proof.
  intros Hn Hc. eexists. split; [now apply upcomingSessions_spec|].
  split.
  { now rewrite sort_length, length_map, occurrences_length. }
  intros ct. split.
  - intros R.
    exists ((dayOfWeek ct - (Day now + 4)) mod 7).
    unfold horizon.
    split; [apply Z.mod_pos_bound; lia|]. split.
    + rewrite WeekDay_MakeDate. Z.div_mod_to_equations. lia.
    + intros d' Hd' Hw. rewrite WeekDay_MakeDate in Hw.
      Z.div_mod_to_equations. lia.
  - intros R d. rewrite WeekDay_MakeDate.
    pose proof (Z.mod_pos_bound (Day now + d + 4) 7 ltac:(lia)). lia.
Qed.

Definition sundaySlot : ClassTime :=
  {| ct_id := "t2"; ct_classId := "c1"; dayOfWeek := 0;
     startMinutes := 30; endMinutes := 60; ct_class := None |}.

Definition strayDaySlot : ClassTime :=
  {| ct_id := "t3"; ct_classId := "c1"; dayOfWeek := 9;
     startMinutes := 30; endMinutes := 60; ct_class := None |}.

Lemma threeSlots_ok : Forall slotOk [mondaySlot; sundaySlot; strayDaySlot].
Proof. repeat constructor; simpl; lia. Qed.

Lemma upcomingSessions_one_per_slot_witness :
  exists l,
    upcomingSessions aMonday [mondaySlot; sundaySlot; strayDaySlot] = Normal l
    /\ length l = 2%nat.
Proof.
  destruct (upcomingSessions_one_per_slot aMonday
              [mondaySlot; sundaySlot; strayDaySlot] aMonday_ok threeSlots_ok)
    as (l & Hl & Hlen & _).
  exists l. split; [exact Hl | exact Hlen].
Defined.

(** C6. Slots, whose minute fields are 32-bit integers as their columns
    are, never make the expansion throw, whatever the order of their start
    and end.  A slot whose end is not after its start still yields its
    session on its day, with an end instant at or before the start
    instant (strictly before when the end minutes are smaller). *)
Theorem upcomingSessions_degenerate_slot (now : Z)
  (classTimes : list ClassTime) :
  referenceOk now -> Forall slotOk classTimes ->
  exists l,
    upcomingSessions now classTimes = Normal l /\
    forall ct d,
      In ct classTimes -> 0 <= d < horizon ->
      WeekDay (MakeDate (Day now + d) 0) = dayOfWeek ct ->
      endMinutes ct <= startMinutes ct ->
      exists s tS tE,
        In s l /\
        tS = MakeDate (Day now + d) (startMinutes ct * msPerMinute) /\
        tE = MakeDate (Day now + d) (endMinutes ct * msPerMinute) /\
        s_start s = isoString tS /\ s_end s = isoString tE /\
        s_id s
        = (ct_id ct ++ "-" ++ isoDate (MakeDate (Day now + d) 0))%string /\
        tE <= tS /\
        (endMinutes ct < startMinutes ct -> tE < tS).
Proof.
  intros Hn Hc. eexists. split; [now apply upcomingSessions_spec|].
  intros ct d Hct Hd Hw Hdeg.
  exists (sessionOf now (ct, d)). do 2 eexists.
  split.
  { apply sort_In, in_map, occurrences_In. cbn [fst snd].
    unfold horizon in Hd. auto. }
  do 5 (split; [reflexivity|]).
  unfold MakeDate, msPerMinute. split; [lia | intros; lia].
Qed.

Definition backwardsSlot : ClassTime :=
  {| ct_id := "t4"; ct_classId := "c1"; dayOfWeek := 1;
     startMinutes := 600; endMinutes := 500; ct_class := None |}.

Lemma upcomingSessions_degenerate_slot_witness :
  exists l s,
    upcomingSessions aMonday [backwardsSlot] = Normal l /\
    In s l /\
    s_start s = "2026-11-02T10:00:00.000Z"%string /\
    s_end s = "2026-11-02T08:20:00.000Z"%string.
Proof.
  assert (Hc : Forall slotOk [backwardsSlot])
    by (repeat constructor; simpl; lia).
  destruct (upcomingSessions_degenerate_slot aMonday [backwardsSlot]
              aMonday_ok Hc) as (l & Hl & H).
  destruct (H backwardsSlot 0 (or_introl eq_refl)
              ltac:(unfold horizon; lia) eq_refl ltac:(simpl; lia))
    as (s & tS & tE & Hs & -> & -> & H1 & H2 & _).
  exists l, s. repeat split; assumption.
Defined.

End Expansion.

(** ** Time stamps and their order *)

Section TimeStamps.
Local Open Scope Z_scope.
Import JS JSDate Dashboard.

Lemma string_append_assoc (a b c : string) :
  ((a ++ b) ++ c = a ++ (b ++ c))%string.
Proof.
  induction a as [|x a IH]; [reflexivity|].
  exact (f_equal (String x) IH).
Qed.

Lemma ascii_compare_refl (c : ascii) : Ascii.compare c c = Eq.
Proof. unfold Ascii.compare. apply N.compare_refl. Qed.

Lemma string_compare_refl (s : string) : String.compare s s = Eq.
Proof.
  induction s as [|c s IH]; simpl; [reflexivity|].
  now rewrite ascii_compare_refl.
Qed.

Lemma digit_compare (a b : Z) :
  0 <= a <= 9 -> 0 <= b <= 9 ->
  Ascii.compare (digit a) (digit b) = (a ?= b).
Proof.
  intros Ha Hb.
  assert (Ca : a = 0 \/ a = 1 \/ a = 2 \/ a = 3 \/ a = 4 \/ a = 5 \/ a = 6 \/
               a = 7 \/ a = 8 \/ a = 9) by lia.
  assert (Cb : b = 0 \/ b = 1 \/ b = 2 \/ b = 3 \/ b = 4 \/ b = 5 \/ b = 6 \/
               b = 7 \/ b = 8 \/ b = 9) by lia.
  repeat (destruct Ca as [->|Ca]); try rewrite Ca;
    repeat (destruct Cb as [->|Cb]); try rewrite Cb; reflexivity.
Qed.

(** Numbers printed with the same number of digits compare as numbers,
    whatever follows them. *)
Lemma digits_compare (w : nat) (a b : Z) (r1 r2 : string) :
  0 <= a < 10 ^ Z.of_nat w -> 0 <= b < 10 ^ Z.of_nat w ->
  String.compare (digits w a ++ r1) (digits w b ++ r2)
  = match a ?= b with
    | Eq => String.compare r1 r2
    | c => c
    end.
Proof.
  revert a b. induction w as [|k IH]; intros a b Ha Hb.
  - change (10 ^ Z.of_nat 0) with 1 in *.
    assert (a = 0) by lia. assert (b = 0) by lia. subst. reflexivity.
  - rewrite Nat2Z.inj_succ, Z.pow_succ_r in Ha, Hb by lia.
    cbn [digits append String.compare].
    set (P := 10 ^ Z.of_nat k) in *.
    assert (HP : 0 < P) by (apply Z.pow_pos_nonneg; lia).
    pose proof (Z.div_mod a P ltac:(lia)) as Da.
    pose proof (Z.div_mod b P ltac:(lia)) as Db.
    pose proof (Z.mod_pos_bound a P HP) as Ra.
    pose proof (Z.mod_pos_bound b P HP) as Rb.
    assert (Qa : 0 <= a / P <= 9).
    { split; [apply Z.div_pos; lia|].
      assert (a / P < 10) by (apply Z.div_lt_upper_bound; lia). lia. }
    assert (Qb : 0 <= b / P <= 9).
    { split; [apply Z.div_pos; lia|].
      assert (b / P < 10) by (apply Z.div_lt_upper_bound; lia). lia. }
    rewrite (Z.mod_small (a / P) 10), (Z.mod_small (b / P) 10) by lia.
    change (String.compare
              (String (digit (a / P)) (digits k (a mod P) ++ r1))
              (String (digit (b / P)) (digits k (b mod P) ++ r2))
            = match a ?= b with
              | Eq => String.compare r1 r2
              | c => c
              end).
    cbn [String.compare].
    rewrite digit_compare by assumption.
    rewrite IH by assumption.
    destruct (Z.compare_spec (a / P) (b / P)) as [E|L|G].
    + destruct (Z.compare_spec (a mod P) (b mod P)) as [E'|L'|G'].
      * replace (a ?= b) with Eq; [reflexivity|].
        symmetry. apply Z.compare_eq_iff. congruence.
      * replace (a ?= b) with Lt; [reflexivity|].
        symmetry. apply Z.compare_lt_iff. rewrite Da, Db, E. lia.
      * replace (a ?= b) with Gt; [reflexivity|].
        symmetry. apply Z.compare_gt_iff. rewrite Da, Db, E. lia.
    + replace (a ?= b) with Lt; [reflexivity|].
      symmetry. apply Z.compare_lt_iff. rewrite Da, Db. nia.
    + replace (a ?= b) with Gt; [reflexivity|].
      symmetry. apply Z.compare_gt_iff. rewrite Da, Db. nia.
Qed.

(** A time value is made of its day and its time fields. *)
Lemma time_fields (t : Z) :
  t = Day t * msPerDay + HourFromTime t * msPerHour
      + MinFromTime t * msPerMinute + SecFromTime t * msPerSecond
      + msFromTime t /\
  0 <= HourFromTime t < 24 /\ 0 <= MinFromTime t < 60 /\
  0 <= SecFromTime t < 60 /\ 0 <= msFromTime t < 1000.
Proof.
  unfold Day, HourFromTime, MinFromTime, SecFromTime, msFromTime,
    msPerDay, msPerHour, msPerMinute, msPerSecond.
  Z.div_mod_to_equations. lia.
Qed.

Lemma month_bounds (t : Z) :
  monthStart (InLeapYear t) (MonthFromTime t) <= DayWithinYear t /\
  (MonthFromTime t < 11 ->
   DayWithinYear t < monthStart (InLeapYear t) (MonthFromTime t + 1)).
Proof.
  pose proof (DayWithinYear_range t) as R. revert R.
  unfold MonthFromTime.
  generalize (DayWithinYear t) (InLeapYear t). intros d l R.
  repeat match goal with
         | |- context [if ?c <? ?e then _ else _] =>
             destruct (Z.ltb_spec c e)
         end; (split; [cbn; lia | intros Hm; try lia; simpl; lia]).
Qed.

Lemma InLeapYear_range (t : Z) : 0 <= InLeapYear t <= 1.
Proof. destruct (InLeapYear_cases t) as [[-> _]|[-> _]]; lia. Qed.

(** Later days have later dates: the year, then the month, then the day
    of the month decide. *)
Lemma date_fields_lt (t1 t2 : Z) :
  Day t1 < Day t2 ->
  YearFromTime t1 < YearFromTime t2 \/
  (YearFromTime t1 = YearFromTime t2 /\
   (MonthFromTime t1 < MonthFromTime t2 \/
    (MonthFromTime t1 = MonthFromTime t2 /\
     DateFromTime t1 < DateFromTime t2))).
Proof.
  intros Hd.
  assert (Hy : YearFromTime t1 <= YearFromTime t2)
    by (apply YearFromDay_mono; lia).
  destruct (Z.eq_dec (YearFromTime t1) (YearFromTime t2)) as [E|N];
    [right; split; [exact E|] | left; lia].
  assert (El : InLeapYear t1 = InLeapYear t2)
    by (unfold InLeapYear; now rewrite E).
  assert (Hw : DayWithinYear t1 < DayWithinYear t2)
    by (unfold DayWithinYear; rewrite E; lia).
  destruct (month_bounds t1) as [L1 U1].
  destruct (month_bounds t2) as [L2 U2].
  pose proof (monthStart_DateFromTime t1) as M1.
  pose proof (monthStart_DateFromTime t2) as M2.
  pose proof (MonthFromTime_range t1) as R1.
  pose proof (MonthFromTime_range t2) as R2.
  pose proof (InLeapYear_range t2) as Rl.
  rewrite El in *.
  destruct (Z.lt_trichotomy (MonthFromTime t1) (MonthFromTime t2))
    as [Lt|[Eq|Gt]].
  - now left.
  - right. split; [exact Eq|]. rewrite Eq in M1. lia.
  - exfalso.
    pose proof (monthStart_mono (InLeapYear t2) (MonthFromTime t2 + 1)
                  (MonthFromTime t1) Rl ltac:(lia) ltac:(lia) ltac:(lia)).
    specialize (U2 ltac:(lia)). lia.
Qed.

Lemma date_fields_eq (t1 t2 : Z) :
  Day t1 = Day t2 ->
  YearFromTime t1 = YearFromTime t2 /\
  MonthFromTime t1 = MonthFromTime t2 /\
  DateFromTime t1 = DateFromTime t2.
Proof.
  intros E.
  assert (Ey : YearFromTime t1 = YearFromTime t2)
    by (unfold YearFromTime; now rewrite E).
  assert (El : InLeapYear t1 = InLeapYear t2)
    by (unfold InLeapYear; now rewrite Ey).
  assert (Ew : DayWithinYear t1 = DayWithinYear t2)
    by (unfold DayWithinYear; now rewrite E, Ey).
  assert (Em : MonthFromTime t1 = MonthFromTime t2)
    by (unfold MonthFromTime; now rewrite Ew, El).
  split; [exact Ey|]. split; [exact Em|].
  unfold DateFromTime. now rewrite Em, Ew, El.
Qed.

(** The years that a time stamp prints with four digits. *)
Definition fourDigitYear (t : Z) : Prop := 0 <= YearFromTime t <= 9999.

Lemma isoString_fields (t : Z) :
  fourDigitYear t ->
  isoString t
  = (digits 4 (YearFromTime t)
     ++ String "-" (digits 2 (MonthFromTime t + 1)
     ++ String "-" (digits 2 (DateFromTime t)
     ++ String "T" (digits 2 (HourFromTime t)
     ++ String ":" (digits 2 (MinFromTime t)
     ++ String ":" (digits 2 (SecFromTime t)
     ++ String "." (digits 3 (msFromTime t) ++ "Z")))))))%string.
Proof.
  intros [H0 H1]. unfold isoString, isoDate, isoTime, isoYear.
  apply Z.leb_le in H0, H1. rewrite H0, H1. cbn [andb].
  rewrite !string_append_assoc. reflexivity.
Qed.

Lemma digits_compare_sep (w : nat) (a b : Z) (c : ascii) (r1 r2 : string) :
  0 <= a < 10 ^ Z.of_nat w -> 0 <= b < 10 ^ Z.of_nat w ->
  String.compare (digits w a ++ String c r1) (digits w b ++ String c r2)
  = match a ?= b with
    | Eq => String.compare r1 r2
    | x => x
    end.
Proof.
  intros Ha Hb. rewrite digits_compare by assumption.
  cbn [String.compare]. now rewrite ascii_compare_refl.
Qed.

Ltac decide_field a b :=
  destruct (Z.compare_spec a b); [ | reflexivity | exfalso; lia ].

(** Time stamps with four-digit years are in the order of their time
    values. *)
Lemma isoString_lt (t1 t2 : Z) :
  fourDigitYear t1 -> fourDigitYear t2 -> t1 < t2 ->
  String.compare (isoString t1) (isoString t2) = Lt.
Proof.
  intros F1 F2 Hlt.
  rewrite (isoString_fields t1 F1), (isoString_fields t2 F2).
  pose proof (MonthFromTime_range t1). pose proof (MonthFromTime_range t2).
  pose proof (DateFromTime_range t1). pose proof (DateFromTime_range t2).
  destruct (time_fields t1) as (T1 & Rh1 & Rm1 & Rs1 & Rms1).
  destruct (time_fields t2) as (T2 & Rh2 & Rm2 & Rs2 & Rms2).
  unfold fourDigitYear in F1, F2.
  rewrite !digits_compare_sep by (simpl; lia).
  assert (Hd : Day t1 <= Day t2).
  { unfold Day, msPerDay. Z.div_mod_to_equations. lia. }
  unfold msPerDay, msPerHour, msPerMinute, msPerSecond in T1, T2.
  destruct (Z.eq_dec (Day t1) (Day t2)) as [E|N].
  - destruct (date_fields_eq t1 t2 E) as (Ey & Em & Ed).
    rewrite Ey, Em, Ed, !Z.compare_refl. rewrite E in T1.
    generalize dependent (Day t2). intros D T1 T2 _.
    decide_field (HourFromTime t1) (HourFromTime t2).
    decide_field (MinFromTime t1) (MinFromTime t2).
    decide_field (SecFromTime t1) (SecFromTime t2).
    decide_field (msFromTime t1) (msFromTime t2).
    exfalso; lia.
  - destruct (date_fields_lt t1 t2 ltac:(lia))
      as [Ly|(Ey & [Lm|(Em & Ld)])].
    + apply Z.compare_lt_iff in Ly. now rewrite Ly.
    + rewrite Ey, Z.compare_refl.
      assert (L : MonthFromTime t1 + 1 < MonthFromTime t2 + 1) by lia.
      apply Z.compare_lt_iff in L. now rewrite L.
    + rewrite Ey, Em, !Z.compare_refl.
      apply Z.compare_lt_iff in Ld. now rewrite Ld.
Qed.

Lemma isoString_compare (t1 t2 : Z) :
  fourDigitYear t1 -> fourDigitYear t2 ->
  String.compare (isoString t1) (isoString t2) = (t1 ?= t2).
Proof.
  intros F1 F2. destruct (Z.compare_spec t1 t2) as [->|L|G].
  - apply string_compare_refl.
  - now apply isoString_lt.
  - rewrite String.compare_antisym, isoString_lt by assumption. reflexivity.
Qed.

(** On such time stamps the comparator of the sort agrees with the order
    of the instants. *)
Lemma localeCompare_isoString (t1 t2 : Z) :
  fourDigitYear t1 -> fourDigitYear t2 ->
  (localeCompare (isoString t1) (isoString t2) <=? 0) = (t1 - t2 <=? 0).
Proof.
  intros F1 F2. unfold localeCompare. rewrite isoString_compare by assumption.
  destruct (Z.compare_spec t1 t2); destruct (Z.leb_spec (t1 - t2) 0);
    try reflexivity; lia.
Qed.

End TimeStamps.

(** ** The order of the upcoming sessions *)

Section SessionOrder.
Local Open Scope Z_scope.
Import JS JSDate Dashboard.

(** Sorting images under [f] with a comparator that agrees with another
    one on the originals sorts the originals. *)
Lemma insertBy_map {A B : Type} (f : A -> B) (cmpA : A -> A -> Z)
  (cmpB : B -> B -> Z) (x : A) (l : list A) :
  (forall y, In y l -> (cmpB (f x) (f y) <=? 0) = (cmpA x y <=? 0)) ->
  insertBy cmpB (f x) (map f l) = map f (insertBy cmpA x l).
Proof.
  induction l as [|y ys IH]; intros H; [reflexivity|].
  cbn [map insertBy]. rewrite (H y) by now left.
  destruct (cmpA x y <=? 0); [reflexivity|].
  cbn [map]. rewrite IH; [reflexivity|].
  intros z Hz. apply H. now right.
Qed.

Lemma sort_map {A B : Type} (f : A -> B) (cmpA : A -> A -> Z)
  (cmpB : B -> B -> Z) (l : list A) :
  (forall x y, In x l -> In y l ->
               (cmpB (f x) (f y) <=? 0) = (cmpA x y <=? 0)) ->
  sort cmpB (map f l) = map f (sort cmpA l).
Proof.
  induction l as [|x xs IH]; intros H; [reflexivity|].
  cbn [map sort fold_right].
  change (fold_right (insertBy cmpB) [] (map f xs))
    with (sort cmpB (map f xs)).
  change (fold_right (insertBy cmpA) [] xs) with (sort cmpA xs).
  rewrite IH by (intros; apply H; now right).
  apply insertBy_map. intros y Hy. apply sort_In in Hy.
  apply H; [now left | now right].
Qed.

(** [(a, b) => a - b] on the start instants of two occurrences. *)
Definition byInstant (now : Z) (p q : ClassTime * Z) : Z :=
  startInstant now p - startInstant now q.

(** C2, as amended.  When the start instants fall in the years 0 to 9999,
    the upcoming sessions are the sessions of the occurrences arranged in
    ascending order of start instant, whatever the order of the slots in
    the input; sessions with the same start instant keep the order in
    which the loops produced them (input order of the slots), they are not
    ordered by slot identifier. *)
Theorem upcomingSessions_sorted_stable (now : Z) (classTimes : list ClassTime) :
  referenceOk now -> Forall slotOk classTimes ->
  (forall ct d, In ct classTimes -> 0 <= d < horizon ->
                fourDigitYear
                  (MakeDate (Day now + d) (startMinutes ct * msPerMinute))) ->
  exists occ : list (ClassTime * Z),
    upcomingSessions now classTimes = Normal (map (sessionOf now) occ) /\
    Permutation occ (occurrences now classTimes) /\
    StronglySorted
      (fun p q => startInstant now p <= startInstant now q) occ /\
    forall t,
      List.filter (fun p => startInstant now p =? t) occ
      = List.filter (fun p => startInstant now p =? t)
          (occurrences now classTimes).
Proof.
  intros Hn Hc H4.
  exists (sort (byInstant now) (occurrences now classTimes)).
  split.
  { rewrite upcomingSessions_spec by assumption. f_equal.
    apply sort_map. intros p q Hp Hq.
    apply occurrences_In in Hp as (Hp & Rp & _).
    apply occurrences_In in Hq as (Hq & Rq & _).
    unfold byStart, byInstant, sessionOf. cbn [s_start].
    apply localeCompare_isoString; apply H4; unfold horizon; assumption. }
  split; [apply sort_perm|]. split.
  - eapply StronglySorted_weaken; [|apply (sort_sorted (byInstant now))].
    + unfold cmpLe, byInstant. intros; lia.
    + unfold byInstant. intros; lia.
    + unfold byInstant. intros; lia.
  - intros t. apply sort_stable. unfold byInstant.
    intros p q Hp Hq. apply Z.eqb_eq in Hp, Hq. lia.
Qed.

Definition slotA : ClassTime :=
  {| ct_id := "a"; ct_classId := "c1"; dayOfWeek := 1;
     startMinutes := 600; endMinutes := 690; ct_class := None |}.

Definition slotB : ClassTime :=
  {| ct_id := "b"; ct_classId := "c2"; dayOfWeek := 1;
     startMinutes := 600; endMinutes := 660; ct_class := None |}.

Lemma upcomingSessions_sorted_stable_witness :
  exists occ,
    upcomingSessions aMonday [slotB; mondaySlot; slotA]
    = Normal (map (sessionOf aMonday) occ) /\
    List.filter (fun p => startInstant aMonday p =? 1793613600000) occ
    = [(slotB, 0); (mondaySlot, 0); (slotA, 0)].
Proof.
  assert (Hc : Forall slotOk [slotB; mondaySlot; slotA])
    by (repeat constructor; simpl; lia).
  assert (H4 : forall ct d, In ct [slotB; mondaySlot; slotA] ->
                 0 <= d < horizon ->
                 fourDigitYear
                   (MakeDate (Day aMonday + d)
                      (startMinutes ct * msPerMinute))).
  { intros ct d Hct Hd. unfold horizon in Hd.
    assert (C : d = 0 \/ d = 1 \/ d = 2 \/ d = 3 \/ d = 4 \/ d = 5 \/ d = 6)
      by lia.
    destruct Hct as [<-|[<-|[<-|[]]]];
      repeat (destruct C as [->|C]); try rewrite C;
      vm_compute; split; discriminate. }
  destruct (upcomingSessions_sorted_stable aMonday [slotB; mondaySlot; slotA]
              aMonday_ok Hc H4) as (occ & Ho & _ & _ & Hst).
  exists occ. split; [exact Ho|]. rewrite Hst. reflexivity.
Defined.

(** The order claimed for ties: by start, then by identifier. *)
Definition startThenId (x y : Session) : Prop :=
  match String.compare (s_start x) (s_start y) with
  | Lt => True
  | Eq => String.compare (s_id x) (s_id y) <> Gt
  | Gt => False
  end.

(** C2 as the claim words it fails: two slots at the same time on the
    same day come out in input order, here "b" before "a". *)
Lemma upcomingSessions_ties_not_by_slot_id :
  exists l,
    upcomingSessions aMonday [slotB; slotA] = Normal l /\
    map s_id l = ["b-2026-11-02"; "a-2026-11-02"]%string /\
    map s_start l
    = ["2026-11-02T10:00:00.000Z"; "2026-11-02T10:00:00.000Z"]%string /\
    ~ StronglySorted startThenId l.
Proof.
  eexists. split; [vm_compute; reflexivity|].
  split; [reflexivity|]. split; [reflexivity|].
  intros H. apply StronglySorted_inv in H as [_ H].
  apply Forall_inv in H. unfold startThenId in H. cbn in H.
  apply H. reflexivity.
Qed.

(** With the slots given the other way round the same two sessions come
    out the other way round. *)
Lemma upcomingSessions_ties_input_order :
  exists l,
    upcomingSessions aMonday [slotA; slotB] = Normal l /\
    map s_id l = ["a-2026-11-02"; "b-2026-11-02"]%string.
Proof. eexists. split; [vm_compute; reflexivity | reflexivity]. Qed.

End SessionOrder.

(** * Further properties of the report *)

(** ** Invoice totals *)

Section InvoiceTotals.
Local Open Scope Z_scope.
Import JS Dashboard.

Definition overdueOf (inv : Invoice) : Z :=
  Z.max 0 (subtotalOf (items inv) - paidOf (items inv)).

Lemma overdueAmountCents_sum (invs : list Invoice) :
  overdueAmountCents invs = sumZ (map overdueOf invs).
Proof.
  unfold overdueAmountCents.
  rewrite (fold_left_add_sumZ overdueOf). lia.
Qed.

Lemma sumZ_app (a b : list Z) : sumZ (a ++ b) = sumZ a + sumZ b.
Proof. induction a as [|x a IH]; simpl; lia. Qed.

(** X1. The overdue amount is clamped invoice by invoice: it is never
    negative, it is at least the plain sum of the remainders (an overpaid
    invoice does not offset another one), and an invoice paid in full or
    more contributes nothing wherever it stands in the list. *)
Theorem overdueAmountCents_clamped (before after : list Invoice)
  (inv : Invoice) :
  0 <= overdueAmountCents (before ++ inv :: after) /\
  sumZ (map (fun i => subtotalOf (items i) - paidOf (items i))
          (before ++ inv :: after))
  <= overdueAmountCents (before ++ inv :: after) /\
  (subtotalOf (items inv) <= paidOf (items inv) ->
   overdueAmountCents (before ++ inv :: after)
   = overdueAmountCents (before ++ after)).
Proof.
  assert (Pos : forall l, 0 <= sumZ (map overdueOf l)).
  { induction l as [|x l IH]; simpl; [lia|]. unfold overdueOf at 1. lia. }
  assert (Low : forall l,
             sumZ (map (fun i => subtotalOf (items i) - paidOf (items i)) l)
             <= sumZ (map overdueOf l)).
  { induction l as [|x l IH]; simpl; [lia|]. unfold overdueOf at 1. lia. }
  rewrite !overdueAmountCents_sum. split; [apply Pos|].
  split; [apply Low|].
  intros Hpaid. rewrite !map_app, !sumZ_app. simpl.
  unfold overdueOf at 2. lia.
Qed.

Definition paidUpInvoice : Invoice :=
  {| items := [ {| billedMonth := 1740787200000; lineTotalCents := 1000;
                   paidCents := Some 1500 |} ] |}.

Definition openInvoice : Invoice :=
  {| items := [ {| billedMonth := 1740787200000; lineTotalCents := 700;
                   paidCents := None |} ] |}.

Lemma overdueAmountCents_clamped_witness :
  overdueAmountCents ([openInvoice] ++ paidUpInvoice :: [openInvoice])
  = overdueAmountCents ([openInvoice] ++ [openInvoice]).
Proof.
  apply (overdueAmountCents_clamped [openInvoice] [openInvoice]
           paidUpInvoice).
  vm_compute. discriminate.
Defined.

Lemma sumZ_flat_map {B : Type} (f : B -> Z) (g : Invoice -> list B)
  (invs : list Invoice) :
  sumZ (map (fun inv => sumZ (map f (g inv))) invs)
  = sumZ (map f (flat_map g invs)).
Proof.
  induction invs as [|inv invs IH]; simpl; [reflexivity|].
  rewrite map_app, sumZ_app, IH. reflexivity.
Qed.

(** X2. The current-month totals add up every item of every invoice that
    was fetched, whatever the billed month of the item: an invoice with
    one item in the month brings all its items into the totals.  The
    totals of two lists of invoices add up. *)
Theorem currentMonth_counts_all_items (xs ys : list Invoice) :
  cm_invoicedCents (currentMonth xs)
  = sumZ (map lineTotalCents (flat_map items xs)) /\
  cm_paidCents (currentMonth xs)
  = sumZ (map (fun i => default 0 (paidCents i)) (flat_map items xs)) /\
  cm_invoicedCents (currentMonth (xs ++ ys))
  = cm_invoicedCents (currentMonth xs) + cm_invoicedCents (currentMonth ys)
  /\
  cm_paidCents (currentMonth (xs ++ ys))
  = cm_paidCents (currentMonth xs) + cm_paidCents (currentMonth ys).
Proof.
  assert (I : forall l, currentMonthInvoicedCents l
                        = sumZ (map lineTotalCents (flat_map items l))).
  { intros l. unfold currentMonthInvoicedCents.
    rewrite (fold_left_add_sumZ (fun inv => subtotalOf (items inv))).
    rewrite <- sumZ_flat_map, Z.add_0_l. f_equal. apply map_ext.
    intros inv. apply subtotalOf_sum. }
  assert (P : forall l, currentMonthPaidCents l
                        = sumZ (map (fun i => default 0 (paidCents i))
                                  (flat_map items l))).
  { intros l. unfold currentMonthPaidCents.
    rewrite (fold_left_add_sumZ (fun inv => paidOf (items inv))).
    rewrite <- sumZ_flat_map, Z.add_0_l. f_equal. apply map_ext.
    intros inv. apply paidOf_sum. }
  unfold currentMonth. cbn [cm_invoicedCents cm_paidCents].
  rewrite !I, !P, !flat_map_app, !map_app, !sumZ_app. auto.
Qed.

(** X3. Every payment-status group is reported under its status, a
    missing status under "unknown"; when the keys are distinct each group
    keeps its own count and no other key appears.  A group whose status
    is "__proto__" is the exception: the assignment reaches the setter
    inherited from Object.prototype and the distribution gets no such
    key. *)
Theorem paymentStatusDistribution_groups (groups : list PaymentStatusGroup) :
  NoDup (map statusKey groups) ->
  (forall g, In g groups -> statusKey g <> "__proto__"%string ->
             paymentStatusDistribution groups !! statusKey g
             = Some (groupCount g)) /\
  paymentStatusDistribution groups !! "__proto__"%string = None /\
  (forall k, ~ In k (map statusKey groups) ->
             paymentStatusDistribution groups !! k = None).
Proof.
  unfold paymentStatusDistribution.
  assert (G : forall gs (m : gmap string Z) k,
             ~ In k (map statusKey gs) \/ k = "__proto__"%string ->
             fold_left (fun dist g => write dist (statusKey g) (groupCount g))
               gs m !! k = m !! k).
  { induction gs as [|g gs IH]; intros m k Hk; [reflexivity|].
    cbn [fold_left]. rewrite IH.
    - unfold write. destruct (String.eqb_spec (statusKey g) "__proto__")
        as [E|N]; [reflexivity|].
      apply lookup_insert_ne. intros E. destruct Hk as [Hk| ->].
      + apply Hk. now left.
      + contradiction.
    - destruct Hk as [Hk|Hk]; [left | now right].
      intros H. apply Hk. now right. }
  intros Hnd. split; [|split].
  - revert Hnd. generalize (∅ : gmap string Z).
    induction groups as [|g gs IH]; intros m Hnd x Hx Hp; [destruct Hx|].
    cbn [map] in Hnd. apply NoDup_cons in Hnd as [Hg Hgs].
    rewrite list_elem_of_In in Hg. cbn [fold_left].
    destruct Hx as [->|Hx].
    + rewrite G by (now left). unfold write.
      apply String.eqb_neq in Hp. rewrite Hp. apply lookup_insert_eq.
    + now apply IH.
  - rewrite G by (now right). apply lookup_empty.
  - intros k Hk. rewrite G by (now left). apply lookup_empty.
Qed.

Lemma paymentStatusDistribution_groups_witness :
  paymentStatusDistribution
    [ {| paymentStatus := Some "paid"%string; groupCount := 12 |};
      {| paymentStatus := None; groupCount := 3 |};
      {| paymentStatus := Some "__proto__"%string; groupCount := 7 |} ]
  !! "unknown"%string
  = Some 3.
Proof.
  refine (proj1 (paymentStatusDistribution_groups _ _)
            {| paymentStatus := None; groupCount := 3 |} _ _).
  - cbn. repeat constructor; rewrite ?list_elem_of_In; simpl;
      intuition discriminate.
  - right. now left.
  - discriminate.
Defined.

End InvoiceTotals.

(** ** Months *)

Section Months.
Local Open Scope Z_scope.
Import JS JSDate Dashboard.

(** The first of the month after that of [t] is after [t], and at most 31
    days after the first of the month of [t]. *)
Lemma first_of_next_month (t : Z) :
  Day t < MakeDay (YearFromTime t) (MonthFromTime t + 1) 1
  <= MakeDay (YearFromTime t) (MonthFromTime t) 1 + 31.
Proof.
  pose proof (MonthFromTime_range t) as R.
  destruct (month_bounds t) as [L U].
  pose proof (YearFromTime_spec t) as S.
  pose proof (InLeapYear_range t) as Rl.
  assert (E0 : MakeDay (YearFromTime t) (MonthFromTime t) 1
               = DayFromYear (YearFromTime t)
                 + monthStart (InLeapYear t) (MonthFromTime t)).
  { unfold MakeDay.
    replace (MonthFromTime t / 12) with 0 by (Z.div_mod_to_equations; lia).
    replace (MonthFromTime t mod 12) with (MonthFromTime t)
      by (Z.div_mod_to_equations; lia).
    rewrite Z.add_0_r. fold (InLeapYear t). lia. }
  rewrite E0.
  destruct (Z.eq_dec (MonthFromTime t) 11) as [E|N].
  - rewrite E. unfold MakeDay.
    change ((11 + 1) / 12) with 1. change ((11 + 1) mod 12) with 0.
    cbn [monthStart]. rewrite DayFromYear_step in *.
    destruct (InLeapYear_cases t) as [[El Ed]|[El Ed]]; rewrite El, Ed in *;
      lia.
  - assert (E1 : MakeDay (YearFromTime t) (MonthFromTime t + 1) 1
                 = DayFromYear (YearFromTime t)
                   + monthStart (InLeapYear t) (MonthFromTime t + 1)).
    { unfold MakeDay.
      replace ((MonthFromTime t + 1) / 12) with 0
        by (Z.div_mod_to_equations; lia).
      replace ((MonthFromTime t + 1) mod 12) with (MonthFromTime t + 1)
        by (Z.div_mod_to_equations; lia).
      rewrite Z.add_0_r. fold (InLeapYear t). lia. }
    rewrite E1. specialize (U ltac:(lia)).
    unfold DayWithinYear in U. split; [lia|].
    assert (monthStart (InLeapYear t) (MonthFromTime t + 1)
            <= monthStart (InLeapYear t) (MonthFromTime t) + 31);
      [|lia].
    generalize dependent (MonthFromTime t). intros m. intros.
    month_cases m H.
    repeat (destruct H as [->|H]); try rewrite H in *; simpl; lia.
Qed.

(** X4. For a date from the epoch on, at least 31 days before the end of
    the range of dates, [getMonthRange] returns two valid dates that
    bracket it: the start is midnight UTC of the first day of its month,
    the end is midnight UTC of the first day of the next month (January
    of the next year after December), and start <= date < end. *)
Theorem getMonthRange_brackets (monthDate : Z) :
  0 <= monthDate -> monthDate + 31 * msPerDay <= maxTime ->
  exists start end_,
    getMonthRange monthDate = (Some start, Some end_) /\
    start <= monthDate < end_ /\
    YearFromTime start = YearFromTime monthDate /\
    MonthFromTime start = MonthFromTime monthDate /\
    DateFromTime start = 1 /\ TimeWithinDay start = 0 /\
    YearFromTime end_
    = YearFromTime monthDate + (MonthFromTime monthDate + 1) / 12 /\
    MonthFromTime end_ = (MonthFromTime monthDate + 1) mod 12 /\
    DateFromTime end_ = 1 /\ TimeWithinDay end_ = 0.
Proof.
  intros H0 H1.
  pose proof (YearFromTime_epoch monthDate H0) as HY.
  pose proof (MonthFromTime_range monthDate) as RM.
  pose proof (first_of_earlier_month monthDate 0 ltac:(lia)) as Lo.
  rewrite Z.sub_0_r in Lo.
  pose proof (first_of_next_month monthDate) as Hi.
  pose proof (Day_bounds monthDate) as DB.
  pose proof (fields_of_MakeDay (YearFromTime monthDate)
                (MonthFromTime monthDate)) as (Sy & Sm & Sd).
  pose proof (fields_of_MakeDay (YearFromTime monthDate)
                (MonthFromTime monthDate + 1)) as (Ey & Em & Ed).
  cbn zeta in Sy, Sm, Sd, Ey, Em, Ed.
  replace (MonthFromTime monthDate / 12) with 0 in Sy
    by (Z.div_mod_to_equations; lia).
  replace (MonthFromTime monthDate mod 12) with (MonthFromTime monthDate)
    in Sm by (Z.div_mod_to_equations; lia).
  rewrite Z.add_0_r in Sy.
  assert (Low : -365 <= MakeDay (YearFromTime monthDate)
                          (MonthFromTime monthDate) 1).
  { pose proof (YearFromTime_spec
                  (MakeDate (MakeDay (YearFromTime monthDate)
                               (MonthFromTime monthDate) 1) 0)) as S.
    rewrite Sy in S. rewrite Day_MakeDate in S by (unfold msPerDay; lia).
    pose proof (DayFromYear_mono 1970 (YearFromTime monthDate) HY) as Mo.
    change (DayFromYear 1970) with 0 in Mo. lia. }
  exists (MakeDate (MakeDay (YearFromTime monthDate)
                      (MonthFromTime monthDate) 1) 0),
         (MakeDate (MakeDay (YearFromTime monthDate)
                      (MonthFromTime monthDate + 1) 1) 0).
  split.
  { unfold getMonthRange, UTC.
    replace ((0 <=? YearFromTime monthDate)
             && (YearFromTime monthDate <=? 99)) with false
      by (symmetry; apply andb_false_iff; right; apply Z.leb_gt; lia).
    change (MakeTime 0 0 0 0) with 0.
    rewrite !TimeClip_valid; [reflexivity| |];
      unfold validTime, MakeDate, maxTime, msPerDay in *; lia. }
  split; [unfold MakeDate, msPerDay in *; lia|].
  repeat split; try assumption;
    unfold TimeWithinDay, MakeDate, msPerDay; Z.div_mod_to_equations; lia.
Qed.

Lemma getMonthRange_brackets_witness :
  exists start end_,
    getMonthRange 1766188800000 = (Some start, Some end_) /\
    start <= 1766188800000 < end_ /\
    YearFromTime end_ = 2026 /\ MonthFromTime end_ = 0.
Proof.
  assert (H0 : 0 <= 1766188800000) by lia.
  assert (H1 : 1766188800000 + 31 * msPerDay <= maxTime)
    by (unfold msPerDay, maxTime; lia).
  destruct (getMonthRange_brackets 1766188800000 H0 H1)
    as (st & en & Hr & Hb & _ & _ & _ & _ & Ey & Em & _).
  exists st, en. repeat split; try assumption; try apply Hb.
Defined.

(** X5. Two valid dates have the same month key exactly when they lie in
    the same UTC year and month: no two months share a bucket. *)
Theorem monthKey_same_month (t1 t2 : Z) :
  monthKey (Some t1) = monthKey (Some t2) <->
  YearFromTime t1 = YearFromTime t2 /\ MonthFromTime t1 = MonthFromTime t2.
Proof.
  rewrite !monthKey_valid. split.
  - apply monthLabel_inj; apply MonthFromTime_range.
  - intros [-> ->]. reflexivity.
Qed.

Lemma sumZ_filter_perm {B : Type} (f : B -> Z) (c : B -> bool)
  (l l' : list B) :
  Permutation l l' ->
  sumZ (map f (List.filter c l)) = sumZ (map f (List.filter c l')).
Proof.
  induction 1 as [|x l l' _ IH|x y l|l l' l'' _ IH1 _ IH2]; simpl.
  - reflexivity.
  - destruct (c x); simpl; lia.
  - destruct (c x), (c y); simpl; lia.
  - lia.
Qed.

Lemma MonthBucket_eq (a b : MonthBucket) :
  mb_month a = mb_month b -> mb_invoicedCents a = mb_invoicedCents b ->
  mb_paidCents a = mb_paidCents b -> a = b.
Proof. destruct a, b; simpl; intros; subst; reflexivity. Qed.

Lemma monthlyRevenue_ext (now : Z) (xs ys : list InvoiceItem) :
  0 <= now <= maxTime ->
  (forall i, 0 <= i <= 5 ->
     let y := YearFromTime now + (MonthFromTime now - i) / 12 in
     let m := (MonthFromTime now - i) mod 12 in
     sumZ (map lineTotalCents (List.filter (inMonth y m) xs))
     = sumZ (map lineTotalCents (List.filter (inMonth y m) ys)) /\
     sumZ (map (fun it => default 0 (paidCents it))
             (List.filter (inMonth y m) xs))
     = sumZ (map (fun it => default 0 (paidCents it))
               (List.filter (inMonth y m) ys))) ->
  monthlyRevenue now xs = monthlyRevenue now ys.
Proof.
  intros Hn H. unfold monthlyRevenue.
  apply map_ext_in. intros i Hi.
  assert (Ri : 0 <= i <= 5) by (simpl in Hi; lia).
  destruct (monthBucket_spec now xs i Hn Ri) as (_ & L1 & I1 & P1).
  destruct (monthBucket_spec now ys i Hn Ri) as (_ & L2 & I2 & P2).
  destruct (H i Ri) as [EI EP]. cbn zeta in EI, EP.
  apply MonthBucket_eq; congruence.
Qed.

(** X6. The monthly trend depends on the items only through the sums per
    month of the six-month window: the order of the items does not
    matter, and an item billed in none of the six months changes
    nothing. *)
Theorem monthlyRevenue_window (now : Z) (xs ys before after : list InvoiceItem)
  (item : InvoiceItem) :
  0 <= now <= maxTime ->
  (Permutation xs ys -> monthlyRevenue now xs = monthlyRevenue now ys) /\
  ((forall i, 0 <= i <= 5 ->
      inMonth (YearFromTime now + (MonthFromTime now - i) / 12)
        ((MonthFromTime now - i) mod 12) item = false) ->
   monthlyRevenue now (before ++ item :: after)
   = monthlyRevenue now (before ++ after)).
Proof.
  intros Hn. split.
  - intros HP. apply monthlyRevenue_ext; [exact Hn|].
    intros i Hi. cbn zeta. split; now apply sumZ_filter_perm.
  - intros Hout. apply monthlyRevenue_ext; [exact Hn|].
    intros i Hi. cbn zeta.
    rewrite !List.filter_app. cbn [List.filter]. rewrite (Hout i Hi).
    split; reflexivity.
Qed.

Definition oldItem : InvoiceItem :=
  {| billedMonth := 1577836800000; lineTotalCents := 9900;
     paidCents := None |}.

Lemma monthlyRevenue_window_witness :
  monthlyRevenue 1751328000000 (marchItems ++ oldItem :: [])
  = monthlyRevenue 1751328000000 (marchItems ++ []).
Proof.
  assert (Hn : 0 <= 1751328000000 <= maxTime) by (unfold maxTime; lia).
  apply (proj2 (monthlyRevenue_window 1751328000000 [] [] marchItems []
                  oldItem Hn)).
  intros i Hi.
  assert (C : i = 0 \/ i = 1 \/ i = 2 \/ i = 3 \/ i = 4 \/ i = 5) by lia.
  destruct C as [->|[->|[->|[->|[->| ->]]]]]; vm_compute; reflexivity.
Defined.

End Months.

(** ** Academics *)

Section Academics.
Local Open Scope Z_scope.
Import JS Dashboard.

Lemma StronglySorted_app_between {B : Type} (R : B -> B -> Prop)
  (a b : list B) :
  StronglySorted R (a ++ b) -> forall x y, In x a -> In y b -> R x y.
Proof.
  induction a as [|z a IH]; intros Hs x y Hx Hy; [destruct Hx|].
  cbn [app] in Hs. apply StronglySorted_inv in Hs as [Hs Hz].
  destruct Hx as [->|Hx].
  - rewrite List.Forall_forall in Hz. apply Hz, in_or_app. now right.
  - now apply IH.
Qed.

(** X7. The list of top classes has min(5, number of classes) entries,
    and the entries left out are the rest of the sorted list: together
    they are a permutation of all entries, and no entry left out has more
    students than an entry of the list. *)
Theorem topClasses_top_five (raw : list RawClass) :
  length (topClasses raw) = Nat.min 5 (length raw) /\
  exists rest,
    Permutation (topClasses raw ++ rest) (map topClassEntry raw) /\
    forall e r, In e (topClasses raw) -> In r rest ->
                tc_studentCount r <= tc_studentCount e.
Proof.
  unfold topClasses.
  set (sorted := sort byStudentCountDesc (map topClassEntry raw)).
  split.
  { rewrite length_firstn. unfold sorted.
    now rewrite sort_length, length_map. }
  exists (skipn 5 sorted). rewrite firstn_skipn. split.
  { apply sort_perm. }
  intros e r He Hr.
  assert (Hs : StronglySorted (cmpLe byStudentCountDesc)
                 (firstn 5 sorted ++ skipn 5 sorted)).
  { rewrite firstn_skipn. apply sort_sorted.
    - unfold byStudentCountDesc. intros; lia.
    - unfold byStudentCountDesc. intros; lia. }
  pose proof (StronglySorted_app_between _ _ _ Hs e r He Hr) as H.
  unfold cmpLe, byStudentCountDesc in H. lia.
Qed.

(** X8. When no level name of any student is the name of a member
    inherited from Object.prototype, the count of a bucket of the
    histogram of students by level is the number of students counted in
    it: those without any level name for "Unassigned", those having the
    name among their level names for a named bucket.  Every bucket that
    is present holds a number, at least 1. *)
Theorem studentsByLevel_counts (studentsWithClasses : list Student)
  (b : string) :
  (forall s k, In s studentsWithClasses -> In k (levelNames s) ->
               isInherited k = false) ->
  bucket (studentsByLevel studentsWithClasses) b
  = Z.of_nat (length (List.filter (countsIn b) studentsWithClasses)) /\
  forall v, studentsByLevel studentsWithClasses !! b = Some v ->
            exists n, v = Num n /\ 1 <= n.
Proof.
  intros Hk. unfold studentsByLevel.
  assert (G : forall ss (h : gmap string Cell),
             numeric h -> positive h ->
             (forall s k, In s ss -> In k (levelNames s) ->
                          isInherited k = false) ->
             let h' := fold_left countStudent ss h in
             bucket h' b
             = bucket h b + Z.of_nat (length (List.filter (countsIn b) ss))
             /\ numeric h' /\ positive h').
  { induction ss as [|s ss IH]; intros h Hh Hp Hs; cbn zeta;
      cbn [fold_left List.filter].
    - simpl. split; [lia | auto].
    - destruct (countStudent_bucket h s b Hh
                  (fun k Hin => Hs s k (or_introl eq_refl) Hin))
        as (E & Hn).
      pose proof (countStudent_positive h s Hh Hp
                    (fun k Hin => Hs s k (or_introl eq_refl) Hin)) as Hp'.
      destruct (IH (countStudent h s) Hn Hp'
                  (fun s' k Hin => Hs s' k (or_intror Hin)))
        as (E' & Hn' & Hp'').
      split; [|auto]. rewrite E', E.
      destruct (countsIn b s); cbn [length]; lia. }
  destruct (G studentsWithClasses ∅ numeric_empty positive_empty Hk)
    as (E & Hn & Hp).
  split.
  - rewrite E. unfold bucket. rewrite lookup_empty. lia.
  - intros v Hv. destruct (Hn b v Hv) as [n ->]. exists n.
    split; [reflexivity|].
    destruct (Hp b) as [E0|E0]; [congruence|].
    unfold bucket in E0. rewrite Hv in E0. exact E0.
Qed.

Lemma studentsByLevel_counts_witness :
  bucket (studentsByLevel [studentOfTwoLevels; {| classes := [] |};
                           studentOfTwoLevels]) "Primaire" = 2.
Proof.
  refine (proj1 (studentsByLevel_counts
                   [studentOfTwoLevels; {| classes := [] |};
                    studentOfTwoLevels] "Primaire" _)).
  intros s k [<-|[<-|[<-|[]]]]; simpl; intuition (subst; reflexivity).
Defined.

End Academics.

(** ** The teacher's classes *)

Section TeacherClasses.
Local Open Scope Z_scope.
Import JS Teachers.

(** X9. In the listing of a teacher's classes, every pricing mode other
    than the string FIXED_TOTAL is priced per student: the total revenue
    is the effective price per student times the number of students.
    Under FIXED_TOTAL the two figures are the same number. *)
Theorem classOut_revenue_and_price (c : RawCls) :
  (pricingMode c <> "FIXED_TOTAL"%string ->
   co_effectivePricePerStudentCents (classOut c)
   = default 0 (monthlyPriceCents c) /\
   co_totalMonthlyRevenueCents (classOut c)
   = co_effectivePricePerStudentCents (classOut c)
     * co_studentCount (classOut c)) /\
  (pricingMode c = "FIXED_TOTAL"%string ->
   co_totalMonthlyRevenueCents (classOut c)
   = co_effectivePricePerStudentCents (classOut c)).
Proof.
  cbn [classOut co_totalMonthlyRevenueCents co_effectivePricePerStudentCents
         co_studentCount].
  unfold baseRevenue, effectivePricePerStudent, isFixedTotal. split.
  - intros N. apply String.eqb_neq in N. rewrite N. split; reflexivity.
  - intros ->. reflexivity.
Qed.

Definition hourlyCls : RawCls :=
  {| id := "c9"; name := "Chess"; pricingMode := "HOURLY";
     monthlyPriceCents := Some 3000; fixedMonthlyPriceCents := Some 50000;
     teacherFixedMonthlyPayCents := None;
     students := [ {| st_id := "s1"; st_user := None |};
                   {| st_id := "s2"; st_user := None |} ];
     subject := None; classTimes := None; studentPriceOverrides := [] |}.

Lemma classOut_revenue_and_price_witness :
  co_totalMonthlyRevenueCents (classOut hourlyCls) = 6000.
Proof.
  destruct (classOut_revenue_and_price hourlyCls) as [H _].
  destruct (H ltac:(discriminate)) as [H1 H2].
  rewrite H2, H1. reflexivity.
Defined.







End TeacherClasses.

(** ** The schedule *)

Section Schedule.
Local Open Scope Z_scope.
Import JS JSDate Dashboard.

(** X11. The schedule of the report is the first 15 upcoming sessions:
    with well-formed input it holds min(15, number of slots whose
    dayOfWeek is in 0..6) sessions and is a prefix of the sorted list. *)
Theorem scheduleUpcoming_first_fifteen (now : Z)
  (classTimes : list ClassTime) :
  referenceOk now -> Forall slotOk classTimes ->
  exists l,
    upcomingSessions now classTimes = Normal l /\
    scheduleUpcoming now classTimes = Normal (firstn 15 l) /\
    length (firstn 15 l)
    = Nat.min 15 (length (List.filter validDay classTimes)).
Proof.
  intros Hn Hc. eexists. split; [now apply upcomingSessions_spec|].
  split.
  - unfold scheduleUpcoming. now rewrite upcomingSessions_spec.
  - now rewrite length_firstn, sort_length, length_map, occurrences_length.
Qed.

Lemma scheduleUpcoming_first_fifteen_witness :
  exists l,
    scheduleUpcoming aMonday [mondaySlot; sundaySlot; strayDaySlot]
    = Normal (firstn 15 l) /\
    length (firstn 15 l) = 2%nat.
Proof.
  destruct (scheduleUpcoming_first_fifteen aMonday
              [mondaySlot; sundaySlot; strayDaySlot] aMonday_ok
              threeSlots_ok) as (l & _ & H1 & H2).
  exists l. split; [exact H1 | exact H2].
Defined.

Lemma TimeClip_invalid (t : Z) : ~ validTime t -> TimeClip t = None.
Proof.
  unfold validTime, TimeClip. intros H.
  destruct (Z.leb_spec (Z.abs t) maxTime); [contradiction | reflexivity].
Qed.

Lemma forOffsets_throws (now : Z) (ct : ClassTime) (d0 : Z) (rounds : nat)
  (offset : Z) (acc : list Session) :
  offset <= d0 < offset + Z.of_nat rounds ->
  sessionsAt now ct d0 = ThrowRangeError ->
  forOffsets now ct rounds offset acc = ThrowRangeError.
Proof.
  intros Hd Ht. revert offset acc Hd.
  induction rounds as [|k IH]; intros offset acc Hd; [lia|].
  cbn [forOffsets].
  destruct (sessionsAt now ct offset) as [pushed|] eqn:E; [|reflexivity].
  apply IH. destruct (Z.eq_dec offset d0) as [->|N]; [congruence | lia].
Qed.

Lemma forClassTimes_throws (now : Z) (ct : ClassTime)
  (classTimes : list ClassTime) (acc : list Session) :
  In ct classTimes ->
  (forall acc', forOffsets now ct (Z.to_nat horizon) 0 acc'
                = ThrowRangeError) ->
  forClassTimes now classTimes acc = ThrowRangeError.
Proof.
  intros Hin Ht. revert acc.
  induction classTimes as [|c rest IH]; intros acc; [destruct Hin|].
  cbn [forClassTimes].
  destruct Hin as [->|Hin]; [now rewrite Ht|].
  destruct (forOffsets now c (Z.to_nat horizon) 0 acc); [now apply IH|].
  reflexivity.
Qed.

(** X12. The expansion is not total on all numbers: one slot with a
    weekday in 0..6 whose start or end minutes carry the instant past
    the last valid date makes [toISOString] throw, and the whole schedule
    ends in a RangeError, whatever the other slots are. *)
Theorem upcomingSessions_range_error (now : Z) (classTimes : list ClassTime)
  (ct : ClassTime) :
  referenceOk now -> In ct classTimes -> 0 <= dayOfWeek ct <= 6 ->
  maxTime < startMinutes ct * msPerMinute \/
  maxTime < endMinutes ct * msPerMinute ->
  upcomingSessions now classTimes = ThrowRangeError /\
  scheduleUpcoming now classTimes = ThrowRangeError.
Proof.
  intros Hn Hin Hdow Hbig.
  assert (Hup : upcomingSessions now classTimes = ThrowRangeError).
  { unfold upcomingSessions.
    rewrite (forClassTimes_throws now ct); [reflexivity | exact Hin |].
    intros acc'.
    set (d0 := (dayOfWeek ct - (Day now + 4)) mod 7).
    assert (Hd0 : 0 <= d0 < 7) by (apply Z.mod_pos_bound; lia).
    apply (forOffsets_throws now ct d0); [unfold horizon; lia|].
    assert (Hint : int32 0) by (unfold int32; lia).
    destruct (instants_valid now d0 0 Hn Hd0 Hint) as [Vd _].
    unfold sessionsAt. cbn zeta.
    rewrite UTC_day_offset by apply Hn.
    rewrite (TimeClip_valid _ Vd). unfold utcDayIs.
    replace (WeekDay (dayInstant now d0) =? dayOfWeek ct) with true.
    2:{ symmetry. apply Z.eqb_eq. rewrite WeekDay_dayInstant.
        unfold d0. Z.div_mod_to_equations. lia. }
    unfold dayInstant at 2 3. rewrite !setUTCMinutes_midnight.
    assert (Hday : 0 <= (Day now + d0) * msPerDay).
    { pose proof (Day_bounds now). destruct Hn as [Hn0 _].
      unfold msPerDay in *. lia. }
    cbn [toISOString].
    destruct (Z.le_gt_cases (startMinutes ct * msPerMinute) maxTime)
      as [Sok|Sbig].
    - destruct Hbig as [Hbig|Hbig]; [lia|].
      rewrite (TimeClip_invalid
                 (MakeDate (Day now + d0) (endMinutes ct * msPerMinute)))
        by (unfold validTime, MakeDate; lia).
      destruct (TimeClip
                  (MakeDate (Day now + d0) (startMinutes ct * msPerMinute)));
        reflexivity.
    - rewrite (TimeClip_invalid
                 (MakeDate (Day now + d0) (startMinutes ct * msPerMinute)))
        by (unfold validTime, MakeDate; lia).
      reflexivity. }
  split; [exact Hup|]. unfold scheduleUpcoming. now rewrite Hup.
Qed.

Definition runawaySlot : ClassTime :=
  {| ct_id := "t9"; ct_classId := "c1"; dayOfWeek := 3;
     startMinutes := 600; endMinutes := 200000000000; ct_class := None |}.

Lemma upcomingSessions_range_error_witness :
  upcomingSessions aMonday [mondaySlot; runawaySlot] = ThrowRangeError.
Proof.
  refine (proj1 (upcomingSessions_range_error aMonday
                   [mondaySlot; runawaySlot] runawaySlot aMonday_ok _ _ _)).
  - right. now left.
  - simpl. lia.
  - right. unfold maxTime, msPerMinute. simpl. lia.
Defined.

Lemma slotOk_perm (xs ys : list ClassTime) :
  Permutation xs ys -> Forall slotOk xs -> Forall slotOk ys.
Proof.
  intros HP H. rewrite List.Forall_forall in *. intros c Hc.
  apply H. eapply Permutation_in; [apply Permutation_sym, HP | exact Hc].
Qed.

(** X13. The order of the slots in the input changes the upcoming
    sessions by a rearrangement only: the same sessions come out, each as
    many times. *)
Theorem upcomingSessions_permutation (now : Z) (xs ys : list ClassTime) :
  referenceOk now -> Forall slotOk xs -> Permutation xs ys ->
  exists l l',
    upcomingSessions now xs = Normal l /\
    upcomingSessions now ys = Normal l' /\
    Permutation l l'.
Proof.
  intros Hn Hc HP.
  pose proof (slotOk_perm xs ys HP Hc) as Hc'.
  do 2 eexists. split; [now apply upcomingSessions_spec|].
  split; [now apply upcomingSessions_spec|].
  eapply Permutation_trans; [apply sort_perm|].
  eapply Permutation_trans; [|apply Permutation_sym, sort_perm].
  apply Permutation_map. unfold occurrences.
  now apply Permutation_flat_map.
Qed.

Lemma upcomingSessions_permutation_witness :
  exists l l',
    upcomingSessions aMonday [mondaySlot; sundaySlot] = Normal l /\
    upcomingSessions aMonday [sundaySlot; mondaySlot] = Normal l' /\
    Permutation l l'.
Proof.
  apply (upcomingSessions_permutation aMonday [mondaySlot; sundaySlot]
           [sundaySlot; mondaySlot] aMonday_ok).
  - repeat constructor; simpl; lia.
  - apply perm_swap.
Defined.

Lemma fourDigitYear_range (t : Z) :
  0 <= t < TimeFromYear 10000 -> fourDigitYear t.
Proof.
  intros [H0 H1]. unfold fourDigitYear.
  pose proof (YearFromTime_epoch t H0).
  pose proof (YearFromTime_spec t) as S.
  pose proof (Day_bounds t) as B.
  split; [lia|].
  destruct (Z.le_gt_cases (YearFromTime t) 9999) as [L|G]; [exact L|].
  pose proof (DayFromYear_mono 10000 (YearFromTime t) ltac:(lia)).
  unfold TimeFromYear, msPerDay in *. lia.
Qed.

(** X14. For slots within the day (0 <= start < end < 1440) and a
    reference instant that leaves eight days before year 10000, the
    expansion does not throw and every session's start time stamp is
    before its end time stamp in string order, as their instants are. *)
Theorem upcomingSessions_start_before_end (now : Z)
  (classTimes : list ClassTime) :
  0 <= now -> now + 8 * msPerDay <= TimeFromYear 10000 ->
  Forall (fun ct => 0 <= startMinutes ct < endMinutes ct
                    /\ endMinutes ct < 1440) classTimes ->
  exists l,
    upcomingSessions now classTimes = Normal l /\
    forall s, In s l -> String.compare (s_start s) (s_end s) = Lt.
Proof.
  intros H0 H1 Hc.
  assert (Hn : referenceOk now).
  { split; [exact H0|].
    change (TimeFromYear 10000) with 253402300800000 in H1.
    unfold maxTime, msPerDay, msPerMinute in *. lia. }
  assert (Hok : Forall slotOk classTimes).
  { eapply List.Forall_impl; [|exact Hc]. intros ct [R1 R2].
    unfold slotOk, int32. change (2 ^ 31) with 2147483648. lia. }
  eexists. split; [now apply upcomingSessions_spec|].
  intros s Hs. apply sort_In, in_map_iff in Hs as ([ct d] & <- & Hp).
  apply occurrences_In in Hp as (Hct & Hd & _). cbn [fst snd] in Hct, Hd.
  rewrite List.Forall_forall in Hc. destruct (Hc ct Hct) as [R1 R2].
  pose proof (Day_bounds now) as B.
  unfold sessionOf. cbn [s_start s_end].
  change (TimeFromYear 10000) with 253402300800000 in H1.
  apply isoString_lt.
  - apply fourDigitYear_range.
    change (TimeFromYear 10000) with 253402300800000.
    unfold startInstant, MakeDate, msPerDay, msPerMinute in *.
    cbn [fst snd]. lia.
  - apply fourDigitYear_range.
    change (TimeFromYear 10000) with 253402300800000.
    unfold endInstant, MakeDate, msPerDay, msPerMinute in *.
    cbn [fst snd]. lia.
  - unfold startInstant, endInstant, MakeDate, msPerMinute.
    cbn [fst snd]. lia.
Qed.

Lemma upcomingSessions_start_before_end_witness :
  exists l,
    upcomingSessions aMonday [mondaySlot; sundaySlot] = Normal l /\
    forall s, In s l -> String.compare (s_start s) (s_end s) = Lt.
Proof.
  apply (upcomingSessions_start_before_end aMonday [mondaySlot; sundaySlot]).
  - unfold aMonday. lia.
  - change (TimeFromYear 10000) with 253402300800000.
    unfold aMonday, msPerDay. lia.
  - repeat constructor; simpl; lia.
Defined.

Lemma digits_length (w : nat) (n : Z) : String.length (digits w n) = w.
Proof.
  revert n. induction w as [|w IH]; intros n; [reflexivity|].
  cbn [digits String.length]. now rewrite IH.
Qed.

Lemma isoDate_length (t : Z) :
  fourDigitYear t -> String.length (isoDate t) = 10%nat.
Proof.
  intros [F0 F1]. unfold isoDate, isoYear.
  apply Z.leb_le in F0, F1. rewrite F0, F1. cbn [andb].
  rewrite !length_append, !digits_length. reflexivity.
Qed.

(** Sessions of distinct slots on four-digit-year dates have distinct
    identifiers. *)
Lemma session_id_inj (now : Z) (p q : ClassTime * Z) :
  fourDigitYear (dayInstant now (snd p)) ->
  fourDigitYear (dayInstant now (snd q)) ->
  s_id (sessionOf now p) = s_id (sessionOf now q) ->
  ct_id (fst p) = ct_id (fst q).
Proof.
  intros Fp Fq E. unfold sessionOf in E. cbn [s_id] in E.
  assert (L : String.length (ct_id (fst p)) = String.length (ct_id (fst q))).
  { apply (f_equal String.length) in E.
    rewrite !length_append, !isoDate_length in E by assumption.
    simpl in E. lia. }
  now apply append_inj_length in E as [E _].
Qed.

Lemma occurrencesOf_slot (now : Z) (ct : ClassTime) (p : ClassTime * Z) :
  In p (occurrencesOf now ct) -> fst p = ct /\ 0 <= snd p < 7.
Proof.
  unfold occurrencesOf. rewrite in_flat_map. intros (o & Ho & H).
  apply zrange_In in Ho. unfold horizon in Ho.
  destruct (onDay now ct o); [|destruct H].
  destruct H as [<-|[]]. simpl. split; [reflexivity | lia].
Qed.

(** X15. When the slot identifiers are distinct and the seven dates of the
    horizon have four-digit years, the identifiers of the upcoming
    sessions are distinct: slot id and date identify a session. *)
Theorem upcomingSessions_ids_distinct (now : Z) (classTimes : list ClassTime) :
  referenceOk now -> Forall slotOk classTimes ->
  (forall d, 0 <= d < horizon -> fourDigitYear (MakeDate (Day now + d) 0)) ->
  NoDup (map ct_id classTimes) ->
  exists l,
    upcomingSessions now classTimes = Normal l /\
    NoDup (map s_id l).
Proof.
  intros Hn Hc H4 Hnd.
  eexists. split; [now apply upcomingSessions_spec|].
  rewrite (Permutation_map s_id
             (sort_perm byStart
                (map (sessionOf now) (occurrences now classTimes)))).
  clear Hc. unfold occurrences.
  induction classTimes as [|ct rest IH]; [constructor|].
  cbn [map] in Hnd. apply NoDup_cons in Hnd as [Hct Hrest].
  rewrite list_elem_of_In in Hct.
  cbn [flat_map]. rewrite !map_app. apply NoDup_app.
  split; [|split; [|now apply IH]].
  - pose proof (occurrencesOf_length now ct) as Hl.
    destruct (occurrencesOf now ct) as [|p [|q r]].
    + constructor.
    + apply NoDup_singleton.
    + destruct (validDay ct); discriminate Hl.
  - intros i Hi Hi'. rewrite list_elem_of_In in Hi, Hi'.
    apply in_map_iff in Hi as (s & <- & Hs).
    apply in_map_iff in Hs as (p & <- & Hp).
    apply in_map_iff in Hi' as (s' & Es & Hs').
    apply in_map_iff in Hs' as (q & <- & Hq).
    apply occurrencesOf_slot in Hp as [Ep Rp].
    apply in_flat_map in Hq as (c' & Hc' & Hq).
    apply occurrencesOf_slot in Hq as [Eq Rq].
    apply Hct. apply in_map_iff. exists c'. split; [|exact Hc'].
    rewrite <- Ep, <- Eq. symmetry.
    apply (session_id_inj now p q); [| |now symmetry];
      apply H4; unfold horizon; assumption.
Qed.

Lemma upcomingSessions_ids_distinct_witness :
  exists l,
    upcomingSessions aMonday [slotA; slotB] = Normal l /\
    NoDup (map s_id l).
Proof.
  apply (upcomingSessions_ids_distinct aMonday [slotA; slotB] aMonday_ok).
  - repeat constructor; simpl; lia.
  - intros d Hd. unfold horizon in Hd.
    assert (C : d = 0 \/ d = 1 \/ d = 2 \/ d = 3 \/ d = 4 \/ d = 5 \/ d = 6)
      by lia.
    repeat (destruct C as [->|C]); try rewrite C;
      vm_compute; split; discriminate.
  - cbn. repeat constructor; rewrite ?list_elem_of_In; simpl;
      intuition discriminate.
Defined.

End Schedule.

(** ** Display names *)

Section DisplayNames.
Import JS Dashboard.

Lemma wsBytes_cases (s : string) :
  wsBytes s = 0%nat \/
  (wsBytes s = 1%nat /\ exists c r, s = String c r) \/
  (wsBytes s = 2%nat /\ exists c c1 r, s = String c (String c1 r)) \/
  (wsBytes s = 3%nat /\
   exists c c1 c2 r, s = String c (String c1 (String c2 r))).
Proof.
  destruct s as [|c [|c1 [|c2 r]]]; cbn [wsBytes]; cbv zeta;
    repeat match goal with
           | |- context [if ?b then _ else _] => destruct b
           end; eauto 10.
Qed.

Lemma blank_trimStart_bounded (n : nat) (s : string) :
  (String.length s <= n)%nat -> blank (trimStart s) = blank s.
Proof.
  revert s. induction n as [|n IH]; intros s Hl.
  - destruct s; [reflexivity | simpl in Hl; lia].
  - destruct s as [|c0 r0]; [reflexivity|].
    destruct (wsBytes_cases (String c0 r0))
      as [H|[[H (c & r & E)]|[[H (c & c1 & r & E)]|[H (c & c1 & c2 & r & E)]]]].
    + cbn [trimStart]. rewrite H. cbn [blank]. now rewrite H.
    + cbn [trimStart blank]. rewrite H. apply IH. simpl in Hl. lia.
    + injection E as -> ->. cbn [trimStart blank]. rewrite H.
      apply IH. simpl in Hl. lia.
    + injection E as -> ->. cbn [trimStart blank]. rewrite H.
      apply IH. simpl in Hl. lia.
Qed.

Lemma blank_trimStart (s : string) : blank (trimStart s) = blank s.
Proof. now apply (blank_trimStart_bounded (String.length s)). Qed.

Lemma trimEnd_empty (s : string) :
  trimEnd s = EmptyString <-> blank s = true.
Proof.
  destruct s as [|c r]; [simpl; tauto|].
  cbn [trimEnd]. destruct (blank (String c r)); split; congruence.
Qed.

Lemma trim_empty (s : string) : trim s = EmptyString <-> blank s = true.
Proof. unfold trim. now rewrite trimEnd_empty, blank_trimStart. Qed.










(** U+00A0, the no-break space, in UTF-8. *)
Definition noBreakSpace : string :=
  String (ascii_of_nat 194) (String (ascii_of_nat 160) EmptyString).






End DisplayNames.

(** ** The comparator of the sort *)

Section Comparator.
Local Open Scope Z_scope.
Import JS JSDate Dashboard.

(** X17. The comparator of the upcoming sessions compares time stamps as
    strings; on sessions whose start instants have four-digit years its
    sign is the sign of the comparison of the instants, so sorting by it
    is sorting by time.  Before year 0 this fails: of two instants in the
    years -2 and -1 the later one has the smaller time stamp. *)
Theorem byStart_chronological (now : Z) (p q : ClassTime * Z) :
  (fourDigitYear (startInstant now p) ->
   fourDigitYear (startInstant now q) ->
   byStart (sessionOf now p) (sessionOf now q)
   = match startInstant now p ?= startInstant now q with
     | Lt => -1
     | Eq => 0
     | Gt => 1
     end) /\
  (TimeFromYear (-2) < TimeFromYear (-1) /\
   localeCompare (isoString (TimeFromYear (-2)))
     (isoString (TimeFromYear (-1))) = 1).
Proof.
  split.
  - intros Fp Fq. unfold byStart, sessionOf, localeCompare.
    cbn [s_start]. now rewrite isoString_compare.
  - split; [reflexivity | vm_compute; reflexivity].
Qed.

Lemma byStart_chronological_witness :
  byStart (sessionOf aMonday (slotA, 0)) (sessionOf aMonday (sundaySlot, 6))
  = -1.
Proof.
  destruct (byStart_chronological aMonday (slotA, 0) (sundaySlot, 6))
    as [H _].
  rewrite H; [reflexivity | |]; vm_compute; split; discriminate.
Defined.

End Comparator.

(** ** Creating a teacher *)

Section CreateTeacher.
Import JS Teachers.

Variable hash : string -> string.
Variable generated : string.

(** X18. When [create] is given an e-mail address it stores the hash of
    the supplied password if that password has a character that is not
    white space, and the hash of the generated password otherwise.  The
    generated password is handed back as the temporary password only when
    no password (or the empty one) was supplied: a supplied password made
    of white space only is replaced by the generated one without it being
    disclosed.  Without an e-mail address the call ends in
    BadRequestException. *)
Theorem create_password (input : CreateInput) :
  let u := userInputOf input in
  match create hash generated input with
  | Returned r =>
      (exists e, up_email u = Some e /\ e <> EmptyString) /\
      match up_password u with
      | None =>
          ucd_password (cr_data r) = hash generated /\
          cr_tempPassword r = Some generated
      | Some p =>
          if blank p then
            ucd_password (cr_data r) = hash generated /\
            cr_tempPassword r
            = (if truthy p then None else Some generated)
          else
            ucd_password (cr_data r) = hash p /\ cr_tempPassword r = None
      end
  | BadRequestException m =>
      m = "Email is required"%string /\
      (up_email u = None \/ up_email u = Some EmptyString)
  | NotFoundException _ | TypeError => False
  end.
Proof.
  cbn zeta. unfold create.
  destruct (up_email (userInputOf input)) as [e|]; [|auto].
  destruct e as [|c e]; [simpl; auto|].
  cbn [truthy]. split; [eexists; split; [reflexivity | discriminate]|].
  cbn [cr_data cr_tempPassword ucd_password]. unfold plainPasswordOf.
  destruct (up_password (userInputOf input)) as [p|]; [|auto].
  destruct (blank p) eqn:B.
  - pose proof (proj2 (trim_empty p) B) as T. rewrite T.
    cbn [String.length Nat.ltb Nat.leb]. rewrite andb_false_r.
    destruct (truthy p); auto.
  - assert (T : trim p <> EmptyString).
    { intros T. apply trim_empty in T. congruence. }
    assert (Hp : truthy p = true) by (destruct p; [discriminate B | reflexivity]).
    rewrite Hp. destruct (trim p); [congruence|]. auto.
Qed.

End CreateTeacher.

Definition salma (password : string) : Teachers.CreateInput :=
  {| Teachers.in_user := None;
     Teachers.in_top :=
       {| Teachers.up_firstName := Some "Salma"%string;
          Teachers.up_lastName := None;
          Teachers.up_email := Some "salma@example.org"%string;
          Teachers.up_password := Some password |};
     Teachers.in_teacher := Teachers.noTeacherFields |}.

Definition storedPassword (password : string) : option (string * option string) :=
  match Teachers.create (fun s => ("#" ++ s)%string) "g3n3rated"
          (salma password) with
  | Teachers.Returned r =>
      Some (Teachers.ucd_password (Teachers.cr_data r),
            Teachers.cr_tempPassword r)
  | _ => None
  end.

Lemma create_password_witness :
  storedPassword "   " = Some ("#g3n3rated"%string, None) /\
  storedPassword (noBreakSpace ++ " " ++ noBreakSpace)
  = Some ("#g3n3rated"%string, None) /\
  storedPassword "" = Some ("#g3n3rated"%string, Some "g3n3rated"%string) /\
  storedPassword " s3cret" = Some ("# s3cret"%string, None).
Proof.
  split; [|split; [|split]].
  all: match goal with
       | |- storedPassword ?p = _ =>
           pose proof (create_password (fun s => ("#" ++ s)%string)
                         "g3n3rated" (salma p)) as H;
           cbn zeta in H; unfold storedPassword;
           change (Teachers.up_password (Teachers.userInputOf (salma p)))
             with (Some p) in H;
           destruct (Teachers.create _ _ (salma p)) as [r|m|m|];
           [ destruct H as [_ H]
           | contradiction
           | destruct H as [_ [H|H]]; discriminate H
           | contradiction ]
       end.
  - change (JS.blank "   ") with true in H. destruct H as [-> ->].
    reflexivity.
  - change (JS.blank (noBreakSpace ++ " " ++ noBreakSpace)) with true in H.
    destruct H as [-> ->]. reflexivity.
  - change (JS.blank "") with true in H. destruct H as [-> ->]. reflexivity.
  - change (JS.blank " s3cret") with false in H. destruct H as [-> ->].
    reflexivity.
Defined.

(** ** Time slots as they are stored *)

Section StoredSlots.
Local Open Scope Z_scope.
Import Classes.

(** X19. A time slot stored by [addTime] or left by [updateTime] ends
    after it starts: [addTime] refuses a payload whose end is not after
    its start, and [updateTime] checks the merge of the payload with the
    stored slot, so a partial update cannot break the order either.  An
    update keeps the identifier and the class of the slot. *)
Theorem stored_slot_ends_after_start (classFound : bool) (newId cid : string)
  (created : CreateClassTimeDto) (time : option ClassTimeRow)
  (changed : UpdateClassTimeDto) :
  (forall row, addTime classFound newId cid created = Returned row ->
               startMinutes row < endMinutes row /\ classId row = cid) /\
  (forall row, updateTime classFound time cid changed = Returned row ->
               startMinutes row < endMinutes row /\
               exists t, time = Some t /\ id row = id t /\
                         classId row = cid /\
                         startMinutes row
                         = default (startMinutes t) (u_startMinutes changed) /\
                         endMinutes row
                         = default (endMinutes t) (u_endMinutes changed)).
Proof.
  split; intros row.
  - unfold addTime, ensureClass. destruct classFound; [|discriminate].
    destruct (Z.leb_spec (c_endMinutes created) (c_startMinutes created));
      [discriminate|].
    intros [= <-]. simpl. split; [lia | reflexivity].
  - unfold updateTime, ensureClass. destruct classFound; [|discriminate].
    destruct time as [t|]; [|discriminate].
    destruct (String.eqb_spec (classId t) cid) as [E|N]; [|discriminate].
    cbn [negb].
    destruct (Z.leb_spec (default (endMinutes t) (u_endMinutes changed))
                (default (startMinutes t) (u_startMinutes changed)));
      [discriminate|].
    intros [= <-]. cbn [startMinutes endMinutes id classId].
    split; [lia|]. exists t. auto.
Qed.

Definition storedSlot : ClassTimeRow :=
  {| id := "t1"; classId := "c1"; dayOfWeek := 1;
     startMinutes := 600; endMinutes := 690 |}.

Lemma stored_slot_ends_after_start_witness :
  updateTime true (Some storedSlot) "c1"
    {| u_dayOfWeek := None; u_startMinutes := Some 700;
       u_endMinutes := None |}
  = NotFoundException "endMinutes must be greater than startMinutes" /\
  forall row,
    updateTime true (Some storedSlot) "c1"
      {| u_dayOfWeek := None; u_startMinutes := Some 630;
         u_endMinutes := None |} = Returned row ->
    startMinutes row < endMinutes row.
Proof.
  split; [reflexivity|]. intros row H.
  apply (proj2 (stored_slot_ends_after_start true "" "c1"
                  {| c_dayOfWeek := 0; c_startMinutes := 0;
                     c_endMinutes := 0 |}
                  (Some storedSlot)
                  {| u_dayOfWeek := None; u_startMinutes := Some 630;
                     u_endMinutes := None |}) row H).
Defined.

End StoredSlots.

(** ** One revenue rule in three places *)

Section RevenueAgreement.
Local Open Scope Z_scope.

Definition modeName (m : Dashboard.PricingMode) : string :=
  match m with
  | Dashboard.PER_STUDENT => "PER_STUDENT"
  | Dashboard.FIXED_TOTAL => "FIXED_TOTAL"
  end.

(** X20. The class page, the dashboard and the teacher listing compute the
    monthly revenue of a class with the same rule: on records of one
    class (same mode, same prices, same number of students) the three
    figures are equal. *)
Theorem revenue_figures_agree (k : Classes.Klass) (c : Dashboard.RawClass)
  (t : Teachers.RawCls) :
  Classes.pricingMode k = modeName (Dashboard.pricingMode c) ->
  Teachers.pricingMode t = modeName (Dashboard.pricingMode c) ->
  Classes.monthlyPriceCents k = Dashboard.monthlyPriceCents c ->
  Teachers.monthlyPriceCents t = Dashboard.monthlyPriceCents c ->
  Classes.fixedMonthlyPriceCents k = Dashboard.fixedMonthlyPriceCents c ->
  Teachers.fixedMonthlyPriceCents t = Dashboard.fixedMonthlyPriceCents c ->
  Classes.students k = Dashboard.students c ->
  Dashboard.students c = Some (map Teachers.st_id (Teachers.students t)) ->
  Classes.monthlyIncome k = Dashboard.estimatedRevenueCents c /\
  Teachers.baseRevenue t = Dashboard.estimatedRevenueCents c.
Proof.
  intros Mk Mt Pk Pt Fk Ft Sk St.
  unfold Classes.monthlyIncome, Teachers.baseRevenue, Teachers.isFixedTotal,
    Dashboard.estimatedRevenueCents, Dashboard.studentCount,
    Teachers.studentCount.
  rewrite Mk, Mt, Pk, Pt, Fk, Ft, Sk, St, length_map.
  destruct (Dashboard.pricingMode c); split; reflexivity.
Qed.

Lemma revenue_figures_agree_witness :
  Classes.monthlyIncome
    {| Classes.pricingMode := "PER_STUDENT";
       Classes.monthlyPriceCents := Some 5000;
       Classes.fixedMonthlyPriceCents := None;
       Classes.students := Some ["s1"; "s2"; "s3"]%string |}
  = Dashboard.estimatedRevenueCents samplePerStudentClass.
Proof.
  refine (proj1 (revenue_figures_agree _ samplePerStudentClass
                   {| Teachers.id := "c1"; Teachers.name := "Algebra";
                      Teachers.pricingMode := "PER_STUDENT";
                      Teachers.monthlyPriceCents := Some 5000;
                      Teachers.fixedMonthlyPriceCents := None;
                      Teachers.teacherFixedMonthlyPayCents := None;
                      Teachers.students :=
                        map (fun i => {| Teachers.st_id := i;
                                         Teachers.st_user := None |})
                          ["s1"; "s2"; "s3"]%string;
                      Teachers.subject := None;
                      Teachers.classTimes := None;
                      Teachers.studentPriceOverrides := [] |}
                   _ _ _ _ _ _ _ _)); reflexivity.
Defined.

End RevenueAgreement.
